(** * CrossKorean-22.10: the pre-training notebook and the setup script

    A shallow embedding of [note/pretrain_mlm.ipynb] and of the vendoring
    step of [reset-lib.sh].  Python values are modelled as follows:
    an [int] is a [Z]; a [list] is a [list]; a [dict] is an association
    list in insertion order whose keys are pairwise distinct; an
    exception is the [Raise] branch of [result]. *)

From Stdlib Require Import ZArith Lia Ascii String.
From stdpp Require Import base list strings gmap.

(** ** Python exceptions *)

Inductive exn : Type :=
| IndexError
| KeyError
| ZeroDivisionError
| ValueError
| NameError
| TypeError
| AttributeError
| OSError
| Exception.

Inductive result (A : Type) : Type :=
| Ok (a : A)
| Raise (e : exn).
Arguments Ok {A} a.
Arguments Raise {A} e.

#[global] Instance result_ret : MRet result := fun A a => Ok a.
#[global] Instance result_bind : MBind result := fun A B f m =>
  match m with
  | Ok a => f a
  | Raise e => Raise e
  end.

#[global] Instance result_fmap : FMap result := fun A B f m =>
  match m with
  | Ok a => Ok (f a)
  | Raise e => Raise e
  end.

Definition returns {A} (m : result A) : Prop := ∃ a, m = Ok a.

(** Evaluate [f] on every element from left to right, stopping at the
    first exception: the skeleton of a comprehension. *)
Fixpoint for_each {A B} (f : A → result B) (l : list A) : result (list B) :=
  match l with
  | [] => Ok []
  | x :: l' => y ← f x; ys ← for_each f l'; Ok (y :: ys)
  end.

(** ** Python built-ins used by the notebook *)

Module Py.

(** *** dict *)

Definition dict (K V : Type) : Type := list (K * V).

Definition keys {K V} (d : dict K V) : list K := d.*1.
Definition items {K V} (d : dict K V) : list (K * V) := d.

(** The representation invariant of a dict: no key occurs twice. *)
Definition dict_wf {K V} (d : dict K V) : Prop := NoDup (keys d).

Section Dict.
Context {K V : Type} `{EqDecision K}.

(** [d[k]] *)
Fixpoint getitem (d : dict K V) (k : K) : result V :=
  match d with
  | [] => Raise KeyError
  | (k', v) :: d' => if decide (k' = k) then Ok v else getitem d' k
  end.

(** [d[k] = v]: an existing key keeps its position, a new key goes
    to the end. *)
Fixpoint setitem (d : dict K V) (k : K) (v : V) : dict K V :=
  match d with
  | [] => [(k, v)]
  | (k', v') :: d' =>
      if decide (k' = k) then (k, v) :: d' else (k', v') :: setitem d' k v
  end.

(** [{k: v for (k, v) in kvs}] *)
Definition dict_of (kvs : list (K * V)) : dict K V :=
  foldl (fun d kv => setitem d kv.1 kv.2) [] kvs.
End Dict.

(** *** Sequences *)

(** [len(l)] *)
Definition len {A} (l : list A) : Z := Z.of_nat (length l).

(** [l[0]]-style indexing with a non-negative literal index. *)
Definition index {A} (l : list A) (i : nat) : result A :=
  match l !! i with
  | Some x => Ok x
  | None => Raise IndexError
  end.

(** [sum(xss, [])]: the start value plus every element in turn. *)
Definition sum_lists {A} (xss : list (list A)) : list A :=
  foldl (fun acc xs => acc ++ xs) [] xss.

(** [a // b] on ints: floor division. *)
Definition floordiv (a b : Z) : result Z :=
  if decide (b = 0)%Z then Raise ZeroDivisionError else Ok (a / b)%Z.

(** [range(start, stop, step)], materialised. *)
Definition range_len (start stop step : Z) : Z :=
  if decide (0 < step)%Z then
    if decide (start < stop)%Z then ((stop - start - 1) / step + 1)%Z else 0%Z
  else
    if decide (stop < start)%Z then ((start - stop - 1) / (- step) + 1)%Z else 0%Z.

Definition range_elems (start stop step : Z) : list Z :=
  (fun i : nat => (start + Z.of_nat i * step)%Z)
    <$> seq 0 (Z.to_nat (range_len start stop step)).

Definition range (start stop step : Z) : result (list Z) :=
  if decide (step = 0)%Z then Raise ValueError
  else Ok (range_elems start stop step).

(** A slice bound clamped to the sequence, negative bounds counting
    from the end. *)
Definition slice_bound (n i : Z) : Z :=
  if decide (i < 0)%Z then Z.max 0 (i + n) else Z.min i n.

(** [l[lo:hi]] *)
Definition slice {A} (l : list A) (lo hi : Z) : list A :=
  let a := slice_bound (len l) lo in
  let b := slice_bound (len l) hi in
  take (Z.to_nat (b - a)) (drop (Z.to_nat a) l).

End Py.

(** ** [group_texts] (notebook cell 47)

    The free variable [max_seq_length] of the Python function is the
    first argument. *)

(** A batch of columns: column name to one token list per example. *)
Definition batch (K T : Type) : Type := Py.dict K (list (list T)).

Section GroupTexts.
Context {K T : Type} `{EqDecision K}.

Definition group_texts (max_seq_length : Z) (examples : batch K T)
  : result (batch K T) :=
  (* concatenated_examples = {k: sum(examples[k], []) for k in examples.keys()} *)
  kvs ← for_each
    (fun k : K => v ← Py.getitem examples k; Ok (k, Py.sum_lists v))
    (Py.keys examples);
  let concatenated_examples : Py.dict K (list T) := Py.dict_of kvs in
  (* total_length = len(concatenated_examples[list(examples.keys())[0]]) *)
  k0 ← Py.index (Py.keys examples) 0;
  t0 ← Py.getitem concatenated_examples k0;
  let total_length := Py.len t0 in
  (* total_length = (total_length // max_seq_length) * max_seq_length *)
  q ← Py.floordiv total_length max_seq_length;
  let total_length := (q * max_seq_length)%Z in
  (* result = {k: [t[i: i + max_seq_length]
                   for i in range(0, total_length, max_seq_length)]
               for k, t in concatenated_examples.items()} *)
  kbs ← for_each
    (fun kt : K * list T =>
       starts ← Py.range 0 total_length max_seq_length;
       Ok (kt.1, (fun i : Z => Py.slice kt.2 i (i + max_seq_length))
                   <$> (starts : list Z)))
    (Py.items concatenated_examples);
  Ok (Py.dict_of kbs : batch K T).
End GroupTexts.

(** The [n] consecutive windows of width [m] of [t]: [t[i*m : i*m + m]]
    for [i < n], cut short where [t] ends. *)
Definition windows {T} (m n : nat) (t : list T) : list (list T) :=
  (fun i : nat => take m (drop (i * m) t)) <$> seq 0 n.

(** Every column of the batch concatenates to [L] tokens. *)
Definition uniform_length {K T} (examples : batch K T) (L : nat) : Prop :=
  ∀ k tss, (k, tss) ∈ examples → length (concat tss) = L.

(** ** The vendored-source patch (reset-lib.sh, line 23)

    [sed -i "s/from collections import/from collections.abc import/"
     attrdict/attrdict/*.py]

    The regular expression has no metacharacter and the replacement has
    neither [&] nor a backslash, so both are literal strings.  Without
    the [g] flag the command rewrites the leftmost match of each line.
    A file is the list of its lines. *)

Module Sed.

(** The rest of [s] after its prefix [p], when [s] starts with [p]. *)
Fixpoint strip_prefix (p s : string) : option string :=
  match p, s with
  | EmptyString, _ => Some s
  | String a p', String b s' =>
      if decide (a = b) then strip_prefix p' s' else None
  | String _ _, EmptyString => None
  end.

(** [s/pat/rep/] on one line. *)
Fixpoint subst_first (pat rep line : string) : string :=
  match strip_prefix pat line with
  | Some rest => rep +:+ rest
  | None =>
      match line with
      | EmptyString => EmptyString
      | String c line' => String c (subst_first pat rep line')
      end
  end.

Definition regexp : string := "from collections import".
Definition replacement : string := "from collections.abc import".

Definition patch_line (line : string) : string :=
  subst_first regexp replacement line.

Definition patch_file (lines : list string) : list string :=
  patch_line <$> lines.

(** The shell pattern [attrdict/attrdict/*.py]: [*] matches any run of
    characters other than [/], and no leading dot. *)
Fixpoint has_slash (s : string) : bool :=
  match s with
  | EmptyString => false
  | String c s' => if decide (c = "/"%char) then true else has_slash s'
  end.

Definition ends_with (suffix s : string) : bool :=
  bool_decide (String.substring (String.length s - String.length suffix)
                                (String.length suffix) s = suffix).

Definition is_attrdict_module (path : string) : bool :=
  match strip_prefix "attrdict/attrdict/" path with
  | Some name =>
      negb (has_slash name)
      && negb (bool_decide (strip_prefix "." name ≠ None))
      && ends_with ".py" name
  | None => false
  end.

(** [sed -i] over the files the pattern expands to. *)
Definition sed_i (fs : gmap string (list string)) : gmap string (list string) :=
  map_imap
    (fun path lines =>
       Some (if is_attrdict_module path then patch_file lines else lines))
    fs.

(** What the claim calls an occurrence. *)
Definition occurs_in (pat line : string) : Prop :=
  ∃ pre post, line = pre +:+ pat +:+ post.

(** The same as a test. *)
Fixpoint occursb (pat line : string) : bool :=
  match strip_prefix pat line with
  | Some _ => true
  | None =>
      match line with
      | EmptyString => false
      | String _ line' => occursb pat line'
      end
  end.

End Sed.

(** ** The [datasets] calls of the notebook

    Only what the notebook relies on: a dataset is the list of its rows,
    a [DatasetDict] is a dict from split name to dataset, and a split
    expression such as ["train[5%:]"] is a split name with two optional
    percent bounds.  How the library rounds a percent bound to a row
    index is left open ([pct_to_abs]). *)

Module Datasets.

Record row : Type := Row { id : Z; text : string }.

#[global] Instance row_eq_dec : EqDecision row.
Proof. solve_decision. Defined.

Definition Dataset : Type := list row.
Definition DatasetDict : Type := Py.dict string Dataset.

(** ["name[from%:to%]"] *)
Record ReadInstruction : Type :=
  Split { splitname : string; from_ : option Z; to : option Z }.

Section Reader.
(** The row index a percent bound stands for in a split of [n] rows. *)
Variable pct_to_abs : Z → nat → nat.

Definition lower (ri : ReadInstruction) (n : nat) : nat :=
  match from_ ri with
  | None => 0
  | Some p => pct_to_abs p n
  end.

Definition upper (ri : ReadInstruction) (n : nat) : nat :=
  match to ri with
  | None => n
  | Some p => pct_to_abs p n
  end.

(** The rows a split expression selects from the named split. *)
Definition read (ri : ReadInstruction) (rows : Dataset) : Dataset :=
  let a := lower ri (length rows) in
  let b := upper ri (length rows) in
  take (b - a) (drop a rows).

(** [load_dataset(path, name)] and [load_dataset(path, name, split=...)]
    on a cached builder with the one split ["train"]; [cache path name]
    is that split. *)
Variable cache : string → string → Dataset.

Definition load_dataset (path name : string) : DatasetDict :=
  [("train"%string, cache path name)].

Definition load_dataset_split (path name : string) (ri : ReadInstruction)
  : result Dataset :=
  if decide (splitname ri = "train"%string)
  then Ok (read ri (cache path name))
  else Raise ValueError.
End Reader.

(** [ds.select(range(n))]: a dataset without rows is returned as it
    is; otherwise the last index must be in range. *)
Definition select_range (n : Z) (ds : Dataset) : result Dataset :=
  match ds with
  | [] => Ok ds
  | _ :: _ =>
      if decide (n ≤ Py.len ds)%Z then Ok (take (Z.to_nat n) ds)
      else Raise IndexError
  end.

(** One rounding: to the closest row, halves to even.  This is the
    exact value of [round(p * n / 100.0)]; in floating point the two
    can differ only for row counts near 2^53. *)
Definition closest (p n : Z) : Z :=
  let x := (p * n)%Z in
  let q := (x / 100)%Z in
  let r := (x mod 100)%Z in
  if decide (r < 50)%Z then q
  else if decide (50 < r)%Z then (q + 1)%Z
  else if Z.even q then q else (q + 1)%Z.

Definition pct_to_abs_closest (p : Z) (n : nat) : nat :=
  Z.to_nat (closest p (Z.of_nat n)).

End Datasets.

(** ** The notebook [note/pretrain_mlm.ipynb] *)

Module Notebook.
Import Datasets.

(** *** Library objects *)

Record PretrainedConfig : Type := Config { name_or_path : string }.

(** A [ByteLevelBPETokenizer]: the batches of text its vocabulary was
    trained from, [None] for an instance that was never trained. *)
Record ByteLevelBPETokenizer : Type := BPE { corpus : option (list (list string)) }.

Definition trained (t : ByteLevelBPETokenizer) : Prop := is_Some (corpus t).

Record PreTrainedTokenizerFast : Type :=
  Fast { backend : ByteLevelBPETokenizer; loaded_from : string }.

Inductive tokenizer_obj : Type :=
| Slow (t : ByteLevelBPETokenizer)
| Loaded (t : PreTrainedTokenizerFast).

(** A function handed to [map], with the globals it reads. *)
Inductive function : Type :=
| tokenize_function (tokenizer : PreTrainedTokenizerFast)
| group_texts_with (max_seq_length : Z).

(** The value of [DatasetDict.map]: which function over which data. *)
Inductive mapped : Type :=
| Source (d : DatasetDict)
| Map (f : function) (d : mapped).

Inductive file : Type :=
| Directory
| ConfigJson (c : PretrainedConfig)
| TokenizerJson (t : ByteLevelBPETokenizer).

(** *** Library calls, as the notebook issues them *)

Inductive event : Type :=
| jax_local_devices
| Path_mkdir (path : string)
| AutoConfig_from_pretrained (name : string)
| config_save_pretrained (dir : string)
| call_load_dataset (path name : string) (split : option ReadInstruction)
| new_ByteLevelBPETokenizer
| tokenizer_save (path : string)
| Dataset_select (split : string) (n : Z)
| AutoTokenizer_from_pretrained (dir : string)
| DatasetDict_map (f : function).

(** *** Interpreter state *)

Record globals : Type := Globals {
  language : option string;
  model_config : option string;
  model_dir : option string;
  config : option PretrainedConfig;
  raw_dataset : option DatasetDict;
  tokenizer : option tokenizer_obj;
  max_seq_length : option Z;
  tokenized_datasets : option mapped;
  defs : list string
}.

Record state : Type := State {
  vars : globals;
  fs : gmap string file;
  trace : list event
}.

Definition no_globals : globals :=
  Globals None None None None None None None None [].

Definition initial : state := State no_globals ∅ [].

Definition set_language v (g : globals) : globals :=
  Globals (Some v) (model_config g) (model_dir g) (config g) (raw_dataset g)
          (tokenizer g) (max_seq_length g) (tokenized_datasets g) (defs g).
Definition set_model_config v (g : globals) : globals :=
  Globals (language g) (Some v) (model_dir g) (config g) (raw_dataset g)
          (tokenizer g) (max_seq_length g) (tokenized_datasets g) (defs g).
Definition set_model_dir v (g : globals) : globals :=
  Globals (language g) (model_config g) (Some v) (config g) (raw_dataset g)
          (tokenizer g) (max_seq_length g) (tokenized_datasets g) (defs g).
Definition set_config v (g : globals) : globals :=
  Globals (language g) (model_config g) (model_dir g) (Some v) (raw_dataset g)
          (tokenizer g) (max_seq_length g) (tokenized_datasets g) (defs g).
Definition set_raw_dataset v (g : globals) : globals :=
  Globals (language g) (model_config g) (model_dir g) (config g) (Some v)
          (tokenizer g) (max_seq_length g) (tokenized_datasets g) (defs g).
Definition set_tokenizer v (g : globals) : globals :=
  Globals (language g) (model_config g) (model_dir g) (config g) (raw_dataset g)
          (Some v) (max_seq_length g) (tokenized_datasets g) (defs g).
Definition set_max_seq_length v (g : globals) : globals :=
  Globals (language g) (model_config g) (model_dir g) (config g) (raw_dataset g)
          (tokenizer g) (Some v) (tokenized_datasets g) (defs g).
Definition set_tokenized_datasets v (g : globals) : globals :=
  Globals (language g) (model_config g) (model_dir g) (config g) (raw_dataset g)
          (tokenizer g) (max_seq_length g) (Some v) (defs g).
Definition add_def name (g : globals) : globals :=
  Globals (language g) (model_config g) (model_dir g) (config g) (raw_dataset g)
          (tokenizer g) (max_seq_length g) (tokenized_datasets g) (defs g ++ [name]).

Definition with_vars (f : globals → globals) (st : state) : state :=
  State (f (vars st)) (fs st) (trace st).
Definition with_file (path : string) (f : file) (st : state) : state :=
  State (vars st) (<[path := f]> (fs st)) (trace st).
Definition emit (e : event) (st : state) : state :=
  State (vars st) (fs st) (trace st ++ [e]).

(** Reading a global name: unbound names raise [NameError]. *)
Definition name {A} (field : globals → option A) (st : state) : result A :=
  match field (vars st) with
  | Some v => Ok v
  | None => Raise NameError
  end.

Definition defined (f : string) (st : state) : result unit :=
  if decide (f ∈ defs (vars st)) then Ok () else Raise NameError.

(** *** Expressions that several cells share *)

(** [model_config + f"-pretrained-{language}"] *)
Definition build_model_dir (model_config language : string) : string :=
  model_config +:+ ("-pretrained-" +:+ language).

(** [f"unshuffled_deduplicated_{language}"] *)
Definition oscar_config (language : string) : string :=
  "unshuffled_deduplicated_" +:+ language.

(** [f"{model_dir}/tokenizer.json"] *)
Definition tokenizer_json (model_dir : string) : string :=
  model_dir +:+ "/tokenizer.json".

Definition config_json (model_dir : string) : string :=
  model_dir +:+ "/config.json".

(** [Path(p).mkdir(parents=True, exist_ok=True)] *)
Definition mkdir (path : string) (st : state) : result state :=
  match fs st !! path with
  | None => Ok (with_file path Directory st)
  | Some Directory => Ok st
  | Some _ => Raise OSError
  end.

(** Cell 25: the generator, run to exhaustion.
    [for i in range(0, len(raw_dataset), batch_size):
         yield raw_dataset["train"][i: i + batch_size]["text"]] *)
Definition batch_iterator (raw_dataset : DatasetDict) (batch_size : Z)
  : result (list (list string)) :=
  starts ← Py.range 0 (Py.len raw_dataset) batch_size;
  for_each
    (fun i : Z =>
       rows ← Py.getitem raw_dataset "train"%string;
       Ok (text <$> Py.slice (rows : Dataset) i (i + batch_size)))
    (starts : list Z).

(** *** The cells

    A code cell maps the interpreter state to the next one or raises.
    Library calls are taken to succeed whenever their arguments are
    well formed (no network or cache failure). *)

Inductive cell : Type :=
| Markdown (opening : string)
| Code (exec : state → result state).

Section Cells.
Variable pct_to_abs : Z → nat → nat.
Variable cache : string → string → Dataset.

(* jax.local_devices() *)
Definition cell_1 (st : state) : result state :=
  Ok (emit jax_local_devices st).

(* language = "ko" *)
Definition cell_4 (st : state) : result state :=
  Ok (with_vars (set_language "ko") st).

(* model_config = "roberta-base" *)
Definition cell_6 (st : state) : result state :=
  Ok (with_vars (set_model_config "roberta-base") st).

(* model_dir = model_config + f"-pretrained-{language}" *)
Definition cell_8 (st : state) : result state :=
  mc ← name model_config st;
  lang ← name language st;
  Ok (with_vars (set_model_dir (build_model_dir mc lang)) st).

(* Path(model_dir).mkdir(parents=True, exist_ok=True) *)
Definition cell_10 (st : state) : result state :=
  dir ← name model_dir st;
  mkdir dir (emit (Path_mkdir dir) st).

(* config = AutoConfig.from_pretrained(model_config) *)
Definition cell_12 (st : state) : result state :=
  mc ← name model_config st;
  Ok (with_vars (set_config (Config mc))
        (emit (AutoConfig_from_pretrained mc) st)).

(* config.save_pretrained(f"{model_dir}") *)
Definition cell_14 (st : state) : result state :=
  c ← name config st;
  dir ← name model_dir st;
  st' ← mkdir dir (emit (config_save_pretrained dir) st);
  Ok (with_file (config_json dir) (ConfigJson c) st').

(* from datasets import load_dataset
   from tokenizers import ByteLevelBPETokenizer *)
Definition cell_17 (st : state) : result state := Ok st.

(* raw_dataset = load_dataset("oscar", f"unshuffled_deduplicated_{language}") *)
Definition cell_19 (st : state) : result state :=
  lang ← name language st;
  Ok (with_vars (set_raw_dataset (load_dataset cache "oscar" (oscar_config lang)))
        (emit (call_load_dataset "oscar" (oscar_config lang) None) st)).

(* raw_dataset *)
Definition cell_20 (st : state) : result state :=
  _ ← name raw_dataset st; Ok st.

(* raw_dataset.column_names, len(raw_dataset['train']) *)
Definition cell_21 (st : state) : result state :=
  d ← name raw_dataset st;
  _ ← Py.getitem (d : DatasetDict) "train"%string;
  Ok st.

(* tokenizer = ByteLevelBPETokenizer() *)
Definition cell_23 (st : state) : result state :=
  Ok (with_vars (set_tokenizer (Slow (BPE None)))
        (emit new_ByteLevelBPETokenizer st)).

(* def batch_iterator(batch_size=1000): ... *)
Definition cell_25 (st : state) : result state :=
  Ok (with_vars (add_def "batch_iterator") st).

(* tokenizer.save(f"{model_dir}/tokenizer.json") *)
Definition cell_28 (st : state) : result state :=
  t ← name tokenizer st;
  match t with
  | Loaded _ => Raise AttributeError
  | Slow bpe =>
      dir ← name model_dir st;
      match fs st !! dir with
      | Some Directory =>
          Ok (with_file (tokenizer_json dir) (TokenizerJson bpe)
                (emit (tokenizer_save (tokenizer_json dir)) st))
      | _ => Raise Exception
      end
  end.

(* max_seq_length = 128 *)
Definition cell_31 (st : state) : result state :=
  Ok (with_vars (set_max_seq_length 128) st).

(* raw_dataset[key] = load_dataset("oscar",
     f"unshuffled_deduplicated_{language}", split=ri) *)
Definition resplit (key : string) (ri : ReadInstruction) (st : state)
  : result state :=
  lang ← name language st;
  ds ← load_dataset_split pct_to_abs cache "oscar" (oscar_config lang) ri;
  d ← name raw_dataset st;
  Ok (with_vars (set_raw_dataset (Py.setitem (d : DatasetDict) key ds))
        (emit (call_load_dataset "oscar" (oscar_config lang) (Some ri)) st)).

(* raw_dataset["train"] = load_dataset(..., split="train[5%:]") *)
Definition cell_33 : state → result state :=
  resplit "train" (Split "train" (Some 5%Z) None).

(* raw_dataset["validation"] = load_dataset(..., split="train[:5%]") *)
Definition cell_35 : state → result state :=
  resplit "validation" (Split "train" None (Some 5%Z)).

(* raw_dataset.column_names, len(raw_dataset['train']),
   len(raw_dataset['validation']) *)
Definition cell_36 (st : state) : result state :=
  d ← name raw_dataset st;
  _ ← Py.getitem (d : DatasetDict) "train"%string;
  _ ← Py.getitem (d : DatasetDict) "validation"%string;
  Ok st.

(* raw_dataset[key] = raw_dataset[key].select(range(n)) *)
Definition truncate (key : string) (n : Z) (st : state) : result state :=
  d ← name raw_dataset st;
  ds ← Py.getitem (d : DatasetDict) key;
  ds' ← select_range n ds;
  Ok (with_vars (set_raw_dataset (Py.setitem (d : DatasetDict) key ds'))
        (emit (Dataset_select key n) st)).

(* raw_dataset["train"] = raw_dataset["train"].select(range(10000))
   raw_dataset["validation"] = raw_dataset["validation"].select(range(1000)) *)
Definition cell_38 (st : state) : result state :=
  st' ← truncate "train" 10000 st;
  truncate "validation" 1000 st'.

(* tokenizer = AutoTokenizer.from_pretrained(f"{model_dir}")
   The tokenizer class is taken from the model configuration, so the
   folder must hold config.json as well as tokenizer.json. *)
Definition cell_40 (st : state) : result state :=
  dir ← name model_dir st;
  match fs st !! config_json dir with
  | Some (ConfigJson _) =>
      match fs st !! tokenizer_json dir with
      | Some (TokenizerJson bpe) =>
          Ok (with_vars (set_tokenizer (Loaded (Fast bpe dir)))
                (emit (AutoTokenizer_from_pretrained dir) st))
      | _ => Raise OSError
      end
  | _ => Raise OSError
  end.

(* tokenizer *)
Definition cell_41 (st : state) : result state :=
  _ ← name tokenizer st; Ok st.

(* def tokenize_function(examples):
       return tokenizer(examples["text"], return_special_tokens_mask=True) *)
Definition cell_43 (st : state) : result state :=
  Ok (with_vars (add_def "tokenize_function") st).

(* tokenized_datasets = raw_dataset.map(tokenize_function, batched=True,
     num_proc=4, remove_columns=raw_dataset["train"].column_names) *)
Definition cell_45 (st : state) : result state :=
  d ← name raw_dataset st;
  _ ← defined "tokenize_function" st;
  _ ← Py.getitem (d : DatasetDict) "train"%string;
  t ← name tokenizer st;
  match t with
  | Slow _ => Raise TypeError
  | Loaded fast =>
      Ok (with_vars
            (set_tokenized_datasets (Map (tokenize_function fast) (Source d)))
            (emit (DatasetDict_map (tokenize_function fast)) st))
  end.

(* def group_texts(examples): ... *)
Definition cell_47 (st : state) : result state :=
  Ok (with_vars (add_def "group_texts") st).

(* tokenized_datasets = tokenized_datasets.map(group_texts, batched=True,
     num_proc=4) *)
Definition cell_49 (st : state) : result state :=
  td ← name tokenized_datasets st;
  _ ← defined "group_texts" st;
  m ← name max_seq_length st;
  Ok (with_vars (set_tokenized_datasets (Map (group_texts_with m) td))
        (emit (DatasetDict_map (group_texts_with m)) st)).

Definition notebook : list cell :=
  [ Markdown "# Pre-Training a Transformers model on TPU with Flax/JAX";
    Code cell_1;
    Markdown "In this notebook, we will pre-train an autoencoding model";
    Markdown "Let's first select the language that our model should learn.";
    Code cell_4;
    Markdown "Next, we select the model architecture to be trained from scratch.";
    Code cell_6;
    Markdown "## 1. Defining the model configuration";
    Code cell_8;
    Markdown "and create it:";
    Code cell_10;
    Markdown "Next, we'll download the model configuration:";
    Code cell_12;
    Markdown "and save it to the directory:";
    Code cell_14;
    Markdown "## 2. Training a tokenizer from scratch";
    Markdown "Let's import the necessary building blocks";
    Code cell_17;
    Markdown "We will store our tokenizer files and model files in a directory";
    Code cell_19;
    Code cell_20;
    Code cell_21;
    Markdown "Having imported the ByteLevelBPETokenizer, we instantiate it,";
    Code cell_23;
    Markdown "define a training iterator,";
    Code cell_25;
    Markdown "and train the tokenizer by defining vocab_size";
    Markdown "Finally, we save the trained tokenizer in the model folder.";
    Code cell_28;
    Markdown "For more information on training tokenizers, see this document.";
    Markdown "## 3. Pre-processing the dataset";
    Code cell_31;
    Markdown "To cross-validate the model's performance during pre-training";
    Code cell_33;
    Markdown "and the final 5% as the validation data.";
    Code cell_35;
    Code cell_36;
    Markdown "For demonstration purposes, we will use only the first 10000 samples";
    Code cell_38;
    Markdown "Next, we load the previously trained ByteLevelBPETokenizer";
    Code cell_40;
    Code cell_41;
    Markdown "We can then write the function that will preprocess the raw text data.";
    Code cell_43;
    Markdown "and apply the tokenization function to every text sample";
    Code cell_45;
    Markdown "Following RoBERTa: A Robustly Optimized BERT Pretraining Approach";
    Code cell_47;
    Markdown "We pass group_texts to the map(...) function";
    Code cell_49;
    Markdown "Awesome, the data is now fully pre-processed" ].
End Cells.

(** Run the cells from top to bottom. *)
Fixpoint run (cells : list cell) (st : state) : result state :=
  match cells with
  | [] => Ok st
  | Markdown _ :: cells' => run cells' st
  | Code exec :: cells' => st' ← exec st; run cells' st'
  end.

(** The interpreter state once the validation split has been cut off
    (after cell 36), written out. *)
Section Checkpoint.
Variable pct_to_abs : Z → nat → nat.
Variable cache : string → string → Dataset.

Definition corpus_ko : Dataset := cache "oscar" "unshuffled_deduplicated_ko".

Definition train_rows : Dataset :=
  read pct_to_abs (Split "train" (Some 5%Z) None) corpus_ko.
Definition validation_rows : Dataset :=
  read pct_to_abs (Split "train" None (Some 5%Z)) corpus_ko.

Definition events_until_resplit : list event :=
  [ jax_local_devices;
    Path_mkdir "roberta-base-pretrained-ko";
    AutoConfig_from_pretrained "roberta-base";
    config_save_pretrained "roberta-base-pretrained-ko";
    call_load_dataset "oscar" "unshuffled_deduplicated_ko" None;
    new_ByteLevelBPETokenizer;
    tokenizer_save "roberta-base-pretrained-ko/tokenizer.json";
    call_load_dataset "oscar" "unshuffled_deduplicated_ko"
      (Some (Split "train" (Some 5%Z) None));
    call_load_dataset "oscar" "unshuffled_deduplicated_ko"
      (Some (Split "train" None (Some 5%Z))) ].

Definition files_saved : gmap string file :=
  <["roberta-base-pretrained-ko/tokenizer.json"%string :=
      TokenizerJson (BPE None)]>
    (<["roberta-base-pretrained-ko/config.json"%string :=
         ConfigJson (Config "roberta-base")]>
       (<["roberta-base-pretrained-ko"%string := Directory]> ∅)).

Definition prepared (train validation : Dataset) (log : list event) : state :=
  State
    (Globals (Some "ko"%string) (Some "roberta-base"%string)
             (Some "roberta-base-pretrained-ko"%string)
             (Some (Config "roberta-base"))
             (Some [("train"%string, train); ("validation"%string, validation)])
             (Some (Slow (BPE None))) (Some 128%Z) None ["batch_iterator"%string])
    files_saved
    log.

Definition after_resplit : state :=
  prepared train_rows validation_rows events_until_resplit.

Definition after_select : state :=
  prepared (take (Z.to_nat 10000) train_rows)
           (take (Z.to_nat 1000) validation_rows)
           (events_until_resplit
              ++ [Dataset_select "train" 10000;
                  Dataset_select "validation" 1000]).

(** The tokenizer that cell 40 reads back from the model folder. *)
Definition reloaded : PreTrainedTokenizerFast :=
  Fast (BPE None) "roberta-base-pretrained-ko".

(** The interpreter state that the cells after cell 38 lead to, from
    [prepared train validation log]. *)
Definition completed (train validation : Dataset) (log : list event) : state :=
  let raw := [("train"%string, train); ("validation"%string, validation)] in
  State
    (Globals (Some "ko"%string) (Some "roberta-base"%string)
             (Some "roberta-base-pretrained-ko"%string)
             (Some (Config "roberta-base"))
             (Some raw)
             (Some (Loaded reloaded)) (Some 128%Z)
             (Some (Map (group_texts_with 128)
                      (Map (tokenize_function reloaded) (Source raw))))
             ["batch_iterator"; "tokenize_function"; "group_texts"]%string)
    files_saved
    (log ++ [ AutoTokenizer_from_pretrained "roberta-base-pretrained-ko";
              DatasetDict_map (tokenize_function reloaded);
              DatasetDict_map (group_texts_with 128) ]).

(** The interpreter state after the last cell. *)
Definition finished : state :=
  completed (take (Z.to_nat 10000) train_rows)
            (take (Z.to_nat 1000) validation_rows)
            (events_until_resplit
               ++ [Dataset_select "train" 10000;
                   Dataset_select "validation" 1000]).
End Checkpoint.

(** *** Code that runs inside the interpreter

    A computation gets the interpreter state, ends with a value or an
    exception, and leaves a state behind. *)

Definition run_in (A : Type) : Type := state → result A * state.

Definition unit_in {A} (a : A) : run_in A := fun st => (Ok a, st).

Definition bind_in {A B} (m : run_in A) (f : A → run_in B) : run_in B :=
  fun st =>
    match m st with
    | (Ok a, st') => f a st'
    | (Raise e, st') => (Raise e, st')
    end.

(** An operation on values: no access to the state. *)
Definition lift {A} (r : result A) : run_in A := fun st => (r, st).

(** Evaluating a global name. *)
Definition global {A} (field : globals → option A) : run_in A :=
  fun st => (name field st, st).

Fixpoint for_each_in {A B} (f : A → run_in B) (l : list A) : run_in (list B) :=
  match l with
  | [] => unit_in []
  | x :: l' =>
      bind_in (f x) (fun y =>
      bind_in (for_each_in f l') (fun ys =>
      unit_in (y :: ys)))
  end.

(** A call of the notebook's [group_texts] (cell 47) inside the
    interpreter: every occurrence of the name [max_seq_length] in the
    body is a look-up of the global at the moment it is evaluated. *)
Definition call_group_texts {K T} `{EqDecision K}
    (examples : batch K T) : run_in (batch K T) :=
  (* concatenated_examples = {k: sum(examples[k], []) for k in examples.keys()} *)
  bind_in (for_each_in
             (fun k : K =>
                bind_in (lift (Py.getitem examples k)) (fun v =>
                unit_in (k, Py.sum_lists v)))
             (Py.keys examples)) (fun kvs =>
  let concatenated_examples : Py.dict K (list T) := Py.dict_of kvs in
  (* total_length = len(concatenated_examples[list(examples.keys())[0]]) *)
  bind_in (lift (Py.index (Py.keys examples) 0)) (fun k0 =>
  bind_in (lift (Py.getitem concatenated_examples k0)) (fun t0 =>
  let total_length := Py.len t0 in
  (* total_length = (total_length // max_seq_length) * max_seq_length *)
  bind_in (global max_seq_length) (fun divisor =>
  bind_in (lift (Py.floordiv total_length divisor)) (fun q =>
  bind_in (global max_seq_length) (fun factor =>
  let total_length := (q * factor)%Z in
  (* result = {k: [t[i: i + max_seq_length]
                   for i in range(0, total_length, max_seq_length)]
               for k, t in concatenated_examples.items()} *)
  bind_in (for_each_in
             (fun kt : K * list T =>
                bind_in (global max_seq_length) (fun step =>
                bind_in (lift (Py.range 0 total_length step)) (fun starts =>
                bind_in (for_each_in
                           (fun i : Z =>
                              bind_in (global max_seq_length) (fun width =>
                              unit_in (Py.slice kt.2 i (i + width))))
                           starts) (fun blocks =>
                unit_in (kt.1, blocks)))))
             (Py.items concatenated_examples)) (fun kbs =>
  unit_in (Py.dict_of kbs : batch K T)))))))).

(** What a computation may do and still be called stateless: it leaves
    the state as it found it, and in two states that bind
    [max_seq_length] alike it ends alike. *)
Definition confined {A} (m : run_in A) : Prop :=
  (∀ st, (m st).2 = st) ∧
  (∀ st1 st2,
     max_seq_length (vars st1) = max_seq_length (vars st2) →
     (m st1).1 = (m st2).1).

End Notebook.

(** ** Sample inputs *)

Module Samples.
Import Datasets.

Definition two_columns : batch string Z :=
  [ ("input_ids"%string, [[11; 12; 13]; [14; 15]]%Z);
    ("attention_mask"%string, [[1; 1; 1]; [1; 1]]%Z) ].

(** A batch of [n] examples of three tokens each, in two columns. *)
Definition triples (n : nat) : batch string Z :=
  [ ("input_ids"%string, (fun i : nat => [Z.of_nat i; 7; 9]%Z) <$> seq 0 n);
    ("attention_mask"%string, (fun _ : nat => [1; 1; 1]%Z) <$> seq 0 n) ].

(** A cached corpus of [n] rows for every configuration. *)
Definition numbered (n : nat) : string → string → Dataset :=
  fun _ _ => (fun i : nat => Row (Z.of_nat i) "") <$> seq 0 n.

(** A cached corpus of twenty thousand copies of one row. *)
Definition uniform : string → string → Dataset :=
  fun _ _ => replicate (Z.to_nat 20000) (Row 0 "").

(** Two interpreter states that agree on [max_seq_length] only. *)
Definition fresh_128 : Notebook.state :=
  Notebook.with_vars (Notebook.set_max_seq_length 128) Notebook.initial.

Definition busy_128 : Notebook.state :=
  Notebook.prepared [] [Row 1 "a"] [Notebook.jax_local_devices].

Definition vendored : gmap string (list string) :=
  {[ "attrdict/attrdict/mapping.py"%string :=
       [ "from collections import Mapping"%string;
         "import six"%string;
         "x = 'from collections import from collections import'"%string ];
     "attrdict/setup.py"%string :=
       [ "from collections import OrderedDict"%string ] ]}.
End Samples.

(** ** Notions used by the further properties *)

(** Two batches over the same columns, joined column by column: the
    examples of [b] follow those of [a]. *)
Definition append_columns {K T} (a b : batch K T) : batch K T :=
  zip_with (fun x y : K * list (list T) => (x.1, x.2 ++ y.2)) a b.

(** A batch as [group_texts] sees it: every column concatenated. *)
Definition flattened {K T} (examples : batch K T) : Py.dict K (list T) :=
  (fun kv => (kv.1, concat kv.2)) <$> examples.

(** The character [c] does not occur in [s]. *)
Fixpoint char_free (c : ascii) (s : string) : bool :=
  match s with
  | EmptyString => true
  | String a s' => if decide (a = c) then false else char_free c s'
  end.

Module MoreSamples.
Import Datasets.

(** Columns of unequal length: 5, 1 and 6 tokens. *)
Definition ragged : batch string Z :=
  [ ("input_ids"%string, [[1; 2; 3]; [4; 5]]%Z);
    ("labels"%string, [[6]]%Z);
    ("mask"%string, [[7; 8]; [9; 10; 11; 12]]%Z) ].

(** The columns of [Samples.two_columns] with other example boundaries. *)
Definition two_columns_regrouped : batch string Z :=
  [ ("input_ids"%string, [[11]; []; [12; 13; 14; 15]]%Z);
    ("attention_mask"%string, [[1; 1; 1; 1; 1]]%Z) ].

(** Four tokens per column, and three more. *)
Definition first_batch : batch string Z :=
  [ ("input_ids"%string, [[1; 2; 3]; [4]]%Z);
    ("attention_mask"%string, [[1; 1]; [1; 1]]%Z) ].
Definition second_batch : batch string Z :=
  [ ("input_ids"%string, [[5; 6; 7]]%Z);
    ("attention_mask"%string, [[1]; [1; 1]]%Z) ].

Definition two_splits : DatasetDict :=
  [ ("train"%string, [Row 0 "a"; Row 1 "b"; Row 2 "c"]);
    ("validation"%string, [Row 3 "d"]) ].

Definition no_train : DatasetDict :=
  [ ("validation"%string, [Row 3 "d"]) ].
End MoreSamples.

(** * Properties *)

(** ** Python built-ins *)

Lemma for_each_total {A B} (f : A → result B) (g : A → B) (l : list A) :
  (∀ x, x ∈ l → f x = Ok (g x)) → for_each f l = Ok (g <$> l).
Proof.
  induction l as [|x l IH]; intros Hf; [done|].
  cbn. rewrite Hf by left. cbn.
  rewrite IH; [done|]. intros y Hy. apply Hf. by right.
Qed.

Section DictFacts.
Context {K V : Type} `{EqDecision K}.
Implicit Types (d : Py.dict K V) (k : K) (v : V).

Lemma getitem_head k v d : Py.getitem ((k, v) :: d) k = Ok v.
Proof. cbn. by rewrite decide_True. Qed.

Lemma getitem_elem_of d k v :
  Py.dict_wf d → (k, v) ∈ d → Py.getitem d k = Ok v.
Proof.
  unfold Py.dict_wf, Py.keys.
  induction d as [|[k' v'] d IH]; intros Hwf Hin.
  - by apply elem_of_nil in Hin.
  - cbn in Hwf. apply NoDup_cons in Hwf as [Hk' Hwf].
    apply elem_of_cons in Hin as [Heq|Hin].
    + inversion Heq; subst. apply getitem_head.
    + cbn. rewrite decide_False; [by apply IH|].
      intros ->. apply Hk'. apply list_elem_of_fmap. by exists (k, v).
Qed.

Lemma getitem_is_elem_of d k v : Py.getitem d k = Ok v → (k, v) ∈ d.
Proof.
  induction d as [|[k' v'] d IH]; cbn; [done|].
  case_decide as Hk.
  - intros [= ->]. subst. by left.
  - intros Hd. right. by apply IH.
Qed.

Lemma setitem_fresh d k v :
  k ∉ Py.keys d → Py.setitem d k v = d ++ [(k, v)].
Proof.
  unfold Py.keys. induction d as [|[k' v'] d IH]; intros Hk; [done|].
  cbn in *. apply not_elem_of_cons in Hk as [Hne Hk].
  rewrite decide_False by done. by rewrite IH.
Qed.

Lemma dict_of_from acc (kvs : list (K * V)) :
  NoDup ((acc ++ kvs).*1) →
  foldl (fun d kv => Py.setitem d kv.1 kv.2) acc kvs = acc ++ kvs.
Proof.
  revert acc. induction kvs as [|[k v] kvs IH]; intros acc Hnd; cbn.
  - by rewrite app_nil_r.
  - rewrite setitem_fresh.
    + rewrite IH; rewrite <- app_assoc; done.
    + rewrite fmap_app in Hnd. apply NoDup_app in Hnd as (_ & Hdisj & _).
      intros Hk. apply (Hdisj k Hk). cbn. by left.
Qed.

(** Building a dict from pairs with distinct keys keeps the pairs. *)
Lemma dict_of_NoDup (kvs : list (K * V)) :
  NoDup (kvs.*1) → Py.dict_of kvs = kvs.
Proof. intros Hnd. unfold Py.dict_of. by rewrite dict_of_from. Qed.
End DictFacts.

Lemma sum_lists_concat {A} (xss : list (list A)) : Py.sum_lists xss = concat xss.
Proof.
  unfold Py.sum_lists.
  enough (∀ acc, foldl (fun acc xs => acc ++ xs) acc xss = acc ++ concat xss)
    as Hgen by apply (Hgen []).
  induction xss as [|xs xss IH]; intros acc; cbn.
  - by rewrite app_nil_r.
  - by rewrite IH, app_assoc.
Qed.

(** A range that stops at a multiple of its positive step. *)
Lemma range_len_multiple (q m : Z) :
  (0 ≤ q)%Z → (0 < m)%Z → Py.range_len 0 (q * m) m = q.
Proof.
  intros Hq Hm. unfold Py.range_len.
  rewrite decide_True by done.
  case_decide as Hlt.
  - replace (q * m - 0 - 1)%Z with ((q - 1) * m + (m - 1))%Z by lia.
    rewrite Z.div_add_l by lia. rewrite Z.div_small by lia. lia.
  - nia.
Qed.

(** With a negative step a range from 0 to a non-negative stop is empty. *)
Lemma range_len_backwards (stop m : Z) :
  (0 ≤ stop)%Z → (m < 0)%Z → Py.range_len 0 stop m = 0%Z.
Proof.
  intros Hs Hm. unfold Py.range_len.
  rewrite decide_False by lia. by rewrite decide_False by lia.
Qed.

(** A slice with bounds inside the non-negative numbers. *)
Lemma slice_block {A} (t : list A) (i m : nat) :
  Py.slice t (Z.of_nat i) (Z.of_nat i + Z.of_nat m) = take m (drop i t).
Proof.
  unfold Py.slice, Py.slice_bound, Py.len.
  rewrite !decide_False by lia.
  destruct (decide (i ≤ length t)) as [Hi|Hi].
  - replace (Z.to_nat (Z.of_nat i `min` Z.of_nat (length t))) with i by lia.
    destruct (decide (i + m ≤ length t)) as [Him|Him].
    + f_equal. lia.
    + rewrite !take_ge; [done| |]; rewrite length_drop; lia.
  - rewrite !drop_ge by lia. by rewrite !take_nil.
Qed.

(** ** [group_texts] *)

Section GroupTextsFacts.
Context {K T : Type} `{EqDecision K}.
Implicit Types (examples : batch K T) (k : K) (m : Z).

Lemma for_each_keys {V W} (d : Py.dict K V) (f : V → W) :
  Py.dict_wf d →
  for_each (fun k => v ← Py.getitem d k; Ok (k, f v)) (Py.keys d)
  = Ok ((fun kv => (kv.1, f kv.2)) <$> d).
Proof.
  intros Hwf.
  enough (∀ l : list (K * V), l ⊆ d →
            for_each (fun k => v ← Py.getitem d k; Ok (k, f v)) (l.*1)
            = Ok ((fun kv => (kv.1, f kv.2)) <$> l)) as Hgen
    by (apply Hgen; done).
  induction l as [|[k v] l IH]; intros Hsub; [done|].
  cbn. rewrite (getitem_elem_of d k v Hwf) by (apply Hsub; left).
  cbn. rewrite IH; [done|].
  intros kv Hkv. apply Hsub. by right.
Qed.

Lemma keys_fmap_snd {V W} (d : Py.dict K V) (f : K * V → W) :
  Py.keys ((fun kv => (kv.1, f kv)) <$> d) = Py.keys d.
Proof.
  unfold Py.keys. rewrite <- list_fmap_compose. by apply list_fmap_ext.
Qed.

(** The column [k0] that the code measures is the first key. *)
Lemma group_texts_unfold m k0 v0 (rest : batch K T) :
  let examples := (k0, v0) :: rest in
  Py.dict_wf examples → m ≠ 0%Z →
  group_texts m examples
  = Ok ((fun kv =>
           (kv.1,
            (fun i : Z => Py.slice (concat kv.2) i (i + m))
              <$> Py.range_elems 0 (Py.len (concat v0) / m * m) m))
          <$> examples).
Proof.
  intros examples Hwf Hm. unfold group_texts.
  rewrite (for_each_keys examples Py.sum_lists Hwf). cbn [mbind result_bind].
  set (ce := (fun kv : K * list (list T) => (kv.1, Py.sum_lists kv.2)) <$> examples).
  assert (Hce : Py.keys ce = Py.keys examples)
    by apply (keys_fmap_snd examples (fun kv => Py.sum_lists kv.2)).
  rewrite (dict_of_NoDup ce) by (fold (Py.keys ce); by rewrite Hce).
  assert (Hk0 : Py.index (Py.keys examples) 0 = Ok k0) by done.
  assert (Ht0 : Py.getitem ce k0 = Ok (Py.sum_lists v0)) by apply getitem_head.
  rewrite Hk0. cbn [mbind result_bind]. rewrite Ht0. cbn [mbind result_bind].
  unfold Py.floordiv. rewrite decide_False by done. cbn [mbind result_bind].
  rewrite sum_lists_concat.
  erewrite for_each_total; last first.
  { intros kt _. unfold Py.range. rewrite decide_False by done. reflexivity. }
  cbn [mbind result_bind]. f_equal.
  unfold Py.items.
  rewrite dict_of_NoDup.
  - unfold ce. rewrite <- list_fmap_compose.
    apply list_fmap_ext. intros _ [k v] _. unfold compose. cbn [fst snd].
    by rewrite sum_lists_concat.
  - pose proof (keys_fmap_snd ce
      (fun kt => (fun i : Z => Py.slice kt.2 i (i + m))
                   <$> Py.range_elems 0 (Py.len (concat v0) / m * m) m)) as Hk.
    unfold Py.keys in Hk, Hce. rewrite Hk, Hce. exact Hwf.
Qed.

(** *** The windows *)

Lemma windows_length (m n : nat) (t : list T) : length (windows m n t) = n.
Proof. unfold windows. by rewrite length_fmap, length_seq. Qed.

Lemma windows_S (m n : nat) (t : list T) :
  windows m (S n) t = windows m n t ++ [take m (drop (n * m) t)].
Proof. unfold windows. by rewrite seq_S, fmap_app. Qed.

Lemma windows_concat (m n : nat) (t : list T) :
  concat (windows m n t) = take (n * m) t.
Proof.
  induction n as [|n IH].
  - by rewrite take_0.
  - rewrite windows_S, concat_app, IH. cbn [concat].
    rewrite app_nil_r, take_take_drop. f_equal. lia.
Qed.

Lemma windows_full (m n : nat) (t : list T) :
  n * m ≤ length t → Forall (fun b => length b = m) (windows m n t).
Proof.
  intros Hn. unfold windows. apply Forall_fmap, Forall_seq.
  intros i Hi. cbn. rewrite length_take, length_drop. nia.
Qed.

(** *** Normal forms of the result *)

Lemma range_elems_multiple (m q : nat) :
  0 < m →
  Py.range_elems 0 (Z.of_nat q * Z.of_nat m) (Z.of_nat m)
  = (fun i : nat => Z.of_nat (i * m)) <$> seq 0 q.
Proof.
  intros Hm. unfold Py.range_elems.
  rewrite range_len_multiple by lia. rewrite Nat2Z.id.
  apply list_fmap_ext. intros _ i _. lia.
Qed.

(** For a positive block size every column is cut into the windows of
    its concatenation, as many as fit into the first column. *)
Lemma group_texts_windows (m : nat) k0 v0 (rest : batch K T) :
  let examples := (k0, v0) :: rest in
  Py.dict_wf examples → 0 < m →
  group_texts (Z.of_nat m) examples
  = Ok ((fun kv => (kv.1, windows m (length (concat v0) / m) (concat kv.2)))
          <$> examples).
Proof.
  intros examples Hwf Hm. subst examples.
  rewrite (group_texts_unfold (Z.of_nat m) k0 v0 rest Hwf) by lia.
  f_equal. apply list_fmap_ext. intros _ [k v] _. cbn [fst snd]. f_equal.
  unfold Py.len. rewrite <- Nat2Z.inj_div.
  rewrite range_elems_multiple by done.
  unfold windows. rewrite <- list_fmap_compose.
  apply list_fmap_ext. intros _ i _. unfold compose.
  by rewrite <- slice_block.
Qed.

(** For a negative block size every column is cut into no block. *)
Lemma group_texts_negative (m : Z) k0 v0 (rest : batch K T) :
  let examples := (k0, v0) :: rest in
  Py.dict_wf examples → (m < 0)%Z →
  group_texts m examples
  = Ok ((fun kv => (kv.1, [])) <$> examples).
Proof.
  intros examples Hwf Hm. subst examples.
  rewrite (group_texts_unfold m k0 v0 rest Hwf) by lia.
  f_equal. apply list_fmap_ext. intros _ [k v] _. cbn [fst snd]. f_equal.
  unfold Py.range_elems. rewrite range_len_backwards; [done| |done].
  unfold Py.len.
  pose proof (Z.div_mod (Z.of_nat (length (concat v0))) m) as Hdiv.
  pose proof (Z.mod_neg_bound (Z.of_nat (length (concat v0))) m Hm) as Hrem.
  nia.
Qed.

Lemma getitem_fmap_snd {V W} (d : Py.dict K V) (f : K * V → W) k v :
  Py.dict_wf d → (k, v) ∈ d →
  Py.getitem ((fun kv => (kv.1, f kv)) <$> d) k = Ok (f (k, v)).
Proof.
  intros Hwf Hin. apply getitem_elem_of.
  - unfold Py.dict_wf. by rewrite keys_fmap_snd.
  - apply list_elem_of_fmap. by exists (k, v).
Qed.

Lemma key_has_value {V} (d : Py.dict K V) k :
  k ∈ Py.keys d → ∃ v, (k, v) ∈ d.
Proof.
  unfold Py.keys. intros Hk. apply list_elem_of_fmap in Hk as ([k' v] & -> & Hin).
  by exists v.
Qed.
End GroupTextsFacts.

(** ** Claims about [group_texts] *)

Section GroupTextsClaims.
Context {K T : Type} `{EqDecision K}.
Implicit Types (examples : batch K T) (k : K).

(** C2.  On a dict whose columns all concatenate to the same length [L],
    with [max_seq_length = 128], the call returns a dict with the same
    keys that maps every key to exactly [L / 128] blocks, each of
    length exactly 128. *)
Theorem group_texts_block_shape examples (L : nat) :
  Py.dict_wf examples →
  uniform_length examples L →
  ∀ k, k ∈ Py.keys examples →
    ∃ result blocks,
      group_texts 128 examples = Ok result ∧
      Py.keys result = Py.keys examples ∧
      Py.getitem result k = Ok blocks ∧
      length blocks = L / 128 ∧
      Forall (fun b => length b = 128) blocks.
Proof.
  intros Hwf HL k Hk.
  destruct examples as [|[k0 v0] rest]; [by apply elem_of_nil in Hk|].
  destruct (key_has_value _ k Hk) as [tss Hin].
  pose proof (group_texts_windows 128 k0 v0 rest Hwf) as Hrun.
  change (Z.of_nat 128) with 128%Z in Hrun.
  rewrite Hrun by lia.
  rewrite (HL k0 v0) by left.
  eexists _, _. split; [reflexivity|]. split; [apply keys_fmap_snd|].
  split.
  { apply (getitem_fmap_snd _
             (fun kv => windows 128 (L / 128) (concat kv.2)) k tss Hwf Hin). }
  split; [apply windows_length|].
  apply windows_full. cbn [snd]. rewrite (HL k tss Hin).
  pose proof (Nat.div_mod_eq L 128). lia.
Qed.

(** C3.  With a positive block size and columns of one common length
    [L], the blocks returned for a key concatenate to the first
    [(L / max_seq_length) * max_seq_length] tokens of that key's
    concatenated input, in order; the column is those tokens followed
    by a discarded tail of [L mod max_seq_length] tokens. *)
Theorem group_texts_keeps_prefix (max_seq_length : nat) examples (L : nat) :
  0 < max_seq_length →
  Py.dict_wf examples →
  uniform_length examples L →
  ∀ k tss, (k, tss) ∈ examples →
    ∃ result blocks,
      group_texts (Z.of_nat max_seq_length) examples = Ok result ∧
      Py.getitem result k = Ok blocks ∧
      concat blocks = take (L / max_seq_length * max_seq_length) (concat tss) ∧
      concat tss
      = concat blocks ++ drop (L / max_seq_length * max_seq_length) (concat tss) ∧
      length (drop (L / max_seq_length * max_seq_length) (concat tss))
      = L mod max_seq_length.
Proof.
  intros Hm Hwf HL k tss Hin.
  destruct examples as [|[k0 v0] rest]; [by apply elem_of_nil in Hin|].
  rewrite (group_texts_windows max_seq_length k0 v0 rest Hwf Hm).
  rewrite (HL k0 v0) by left.
  eexists _, _. split; [reflexivity|]. split.
  { apply (getitem_fmap_snd _
             (fun kv => windows max_seq_length (L / max_seq_length) (concat kv.2))
             k tss Hwf Hin). }
  cbn [snd]. rewrite windows_concat.
  split; [done|]. split; [by rewrite take_drop|].
  rewrite length_drop, (HL k tss Hin).
  pose proof (Nat.div_mod_eq L max_seq_length). lia.
Qed.

(** C4, as amended.  On every dict with at least one key, and with a
    non-zero block size (128 in the notebook), the call returns a dict
    with the keys of its input. *)
Theorem group_texts_returns (max_seq_length : Z) examples :
  Py.dict_wf examples →
  examples ≠ [] →
  max_seq_length ≠ 0%Z →
  ∃ result,
    group_texts max_seq_length examples = Ok result ∧
    Py.keys result = Py.keys examples.
Proof.
  intros Hwf Hne Hm.
  destruct examples as [|[k0 v0] rest]; [done|].
  rewrite (group_texts_unfold max_seq_length k0 v0 rest Hwf Hm).
  eexists. split; [reflexivity|].
  apply (keys_fmap_snd ((k0, v0) :: rest)
           (fun kv => (fun i : Z => Py.slice (concat kv.2) i (i + max_seq_length))
                        <$> Py.range_elems 0
                              (Py.len (concat v0) / max_seq_length * max_seq_length)
                              max_seq_length)).
Qed.

(** C10.  When the columns concatenate to a common length [L] below
    the block size, the call returns the empty list of blocks for
    every key. *)
Theorem group_texts_short_input (max_seq_length : Z) examples (L : nat) :
  Py.dict_wf examples →
  uniform_length examples L →
  (Z.of_nat L < max_seq_length)%Z →
  ∀ k, k ∈ Py.keys examples →
    ∃ result,
      group_texts max_seq_length examples = Ok result ∧
      Py.getitem result k = Ok [].
Proof.
  intros Hwf HL Hlt k Hk.
  destruct examples as [|[k0 v0] rest]; [by apply elem_of_nil in Hk|].
  destruct (key_has_value _ k Hk) as [tss Hin].
  pose proof (group_texts_windows (Z.to_nat max_seq_length) k0 v0 rest Hwf) as Hrun.
  rewrite Z2Nat.id in Hrun by lia.
  rewrite Hrun by lia.
  rewrite (HL k0 v0) by left.
  rewrite Nat.div_small by lia.
  eexists. split; [reflexivity|].
  apply (getitem_fmap_snd _ (fun kv => windows (Z.to_nat max_seq_length) 0 (concat kv.2))
           k tss Hwf Hin).
Qed.
End GroupTextsClaims.

(** Closing the side conditions on the sample batches. *)
Ltac sample_wf :=
  unfold Py.dict_wf; apply (bool_decide_unpack _); vm_compute; exact I.

Ltac sample_uniform :=
  let H := fresh in
  intros ? ? H; repeat (apply elem_of_cons in H as [H|H]);
  [ injection H as -> ->; vm_compute; reflexivity ..
  | by apply elem_of_nil in H ].

Ltac sample_key :=
  apply (bool_decide_unpack _); vm_compute; exact I.

Lemma group_texts_block_shape_witness :
  Py.dict_wf (Samples.triples 100) ∧
  uniform_length (Samples.triples 100) 300 ∧
  "attention_mask"%string ∈ Py.keys (Samples.triples 100) ∧
  ∃ result blocks,
    group_texts 128 (Samples.triples 100) = Ok result ∧
    Py.keys result = Py.keys (Samples.triples 100) ∧
    Py.getitem result "attention_mask"%string = Ok blocks ∧
    length blocks = 300 / 128 ∧
    Forall (fun b => length b = 128) blocks.
Proof.
  assert (Hwf : Py.dict_wf (Samples.triples 100)) by sample_wf.
  assert (HL : uniform_length (Samples.triples 100) 300) by sample_uniform.
  assert (Hk : "attention_mask"%string ∈ Py.keys (Samples.triples 100))
    by sample_key.
  split; [exact Hwf|]. split; [exact HL|]. split; [exact Hk|].
  exact (group_texts_block_shape (Samples.triples 100) 300 Hwf HL _ Hk).
Defined.

Lemma group_texts_keeps_prefix_witness :
  0 < 2 ∧
  Py.dict_wf Samples.two_columns ∧
  uniform_length Samples.two_columns 5 ∧
  ("input_ids"%string, [[11; 12; 13]; [14; 15]]%Z) ∈ Samples.two_columns ∧
  ∃ result blocks,
    group_texts (Z.of_nat 2) Samples.two_columns = Ok result ∧
    Py.getitem result "input_ids"%string = Ok blocks ∧
    concat blocks = take (5 / 2 * 2) (concat [[11; 12; 13]; [14; 15]]%Z) ∧
    concat [[11; 12; 13]; [14; 15]]%Z
    = concat blocks ++ drop (5 / 2 * 2) (concat [[11; 12; 13]; [14; 15]]%Z) ∧
    length (drop (5 / 2 * 2) (concat [[11; 12; 13]; [14; 15]]%Z)) = 5 mod 2.
Proof.
  assert (Hm : 0 < 2) by lia.
  assert (Hwf : Py.dict_wf Samples.two_columns) by sample_wf.
  assert (HL : uniform_length Samples.two_columns 5) by sample_uniform.
  assert (Hin : ("input_ids"%string, [[11; 12; 13]; [14; 15]]%Z)
                  ∈ Samples.two_columns) by left.
  split; [exact Hm|]. split; [exact Hwf|]. split; [exact HL|]. split; [exact Hin|].
  exact (group_texts_keeps_prefix 2 Samples.two_columns 5 Hm Hwf HL _ _ Hin).
Defined.

(** C4 as stated fails on the empty dict: [list(examples.keys())[0]]
    raises [IndexError]. *)
Lemma group_texts_empty_dict_raises :
  group_texts 128 ([] : batch string Z) = Raise IndexError ∧
  ¬ returns (group_texts 128 ([] : batch string Z)).
Proof.
  split; [reflexivity|]. intros [result Hresult]. discriminate Hresult.
Qed.

Lemma group_texts_returns_witness :
  Py.dict_wf Samples.two_columns ∧
  Samples.two_columns ≠ [] ∧
  128%Z ≠ 0%Z ∧
  ∃ result,
    group_texts 128 Samples.two_columns = Ok result ∧
    Py.keys result = Py.keys Samples.two_columns.
Proof.
  assert (Hwf : Py.dict_wf Samples.two_columns) by sample_wf.
  assert (Hne : Samples.two_columns ≠ []) by discriminate.
  assert (Hm : 128%Z ≠ 0%Z) by lia.
  split; [exact Hwf|]. split; [exact Hne|]. split; [exact Hm|].
  exact (group_texts_returns 128 Samples.two_columns Hwf Hne Hm).
Defined.

Lemma group_texts_short_input_witness :
  Py.dict_wf Samples.two_columns ∧
  uniform_length Samples.two_columns 5 ∧
  (Z.of_nat 5 < 128)%Z ∧
  "input_ids"%string ∈ Py.keys Samples.two_columns ∧
  ∃ result,
    group_texts 128 Samples.two_columns = Ok result ∧
    Py.getitem result "input_ids"%string = Ok [].
Proof.
  assert (Hwf : Py.dict_wf Samples.two_columns) by sample_wf.
  assert (HL : uniform_length Samples.two_columns 5) by sample_uniform.
  assert (Hlt : (Z.of_nat 5 < 128)%Z) by lia.
  assert (Hk : "input_ids"%string ∈ Py.keys Samples.two_columns) by sample_key.
  split; [exact Hwf|]. split; [exact HL|]. split; [exact Hlt|]. split; [exact Hk|].
  exact (group_texts_short_input 128 Samples.two_columns 5 Hwf HL Hlt _ Hk).
Defined.

(** *** [group_texts] inside the interpreter *)

Section InterpreterFacts.
Import Notebook.

Lemma confined_unit {A} (a : A) : confined (unit_in a).
Proof. by split. Qed.

Lemma confined_lift {A} (r : result A) : confined (lift r).
Proof. by split. Qed.

Lemma confined_max_seq_length : confined (global max_seq_length).
Proof.
  split; [done|]. intros st1 st2 Hm. unfold global, name. cbn [fst].
  by rewrite Hm.
Qed.

Lemma confined_bind {A B} (m : run_in A) (f : A → run_in B) :
  confined m → (∀ a, confined (f a)) → confined (bind_in m f).
Proof.
  intros [Hstate Hread] Hf. split.
  - intros st. unfold bind_in. specialize (Hstate st).
    destruct (m st) as [[a|e] st']; cbn [snd] in Hstate; subst st'; [|done].
    apply (Hf a).
  - intros st1 st2 Hm. unfold bind_in.
    pose proof (Hstate st1) as H1. pose proof (Hstate st2) as H2.
    specialize (Hread st1 st2 Hm).
    destruct (m st1) as [r1 st1'], (m st2) as [r2 st2'].
    cbn [fst snd] in *. subst st1' st2' r2.
    destruct r1 as [a|e]; [|done]. by apply (Hf a).
Qed.

Lemma confined_for_each {A B} (f : A → run_in B) (l : list A) :
  (∀ x, confined (f x)) → confined (for_each_in f l).
Proof.
  intros Hf. induction l as [|x l IH]; cbn [for_each_in].
  - apply confined_unit.
  - apply confined_bind; [apply Hf|]. intros y.
    apply confined_bind; [apply IH|]. intros ys. apply confined_unit.
Qed.

(** The body of [group_texts] writes no global and reads none but
    [max_seq_length], on any input. *)
Lemma call_group_texts_confined {K T} `{EqDecision K} (examples : batch K T) :
  confined (call_group_texts examples).
Proof.
  unfold call_group_texts.
  apply confined_bind.
  { apply confined_for_each. intros k.
    apply confined_bind; [apply confined_lift|]. intros v. apply confined_unit. }
  intros kvs. apply confined_bind; [apply confined_lift|]. intros k0.
  apply confined_bind; [apply confined_lift|]. intros t0.
  apply confined_bind; [apply confined_max_seq_length|]. intros divisor.
  apply confined_bind; [apply confined_lift|]. intros q.
  apply confined_bind; [apply confined_max_seq_length|]. intros factor.
  apply confined_bind; [|intros kbs; apply confined_unit].
  apply confined_for_each. intros kt.
  apply confined_bind; [apply confined_max_seq_length|]. intros step.
  apply confined_bind; [apply confined_lift|]. intros starts.
  apply confined_bind; [|intros blocks; apply confined_unit].
  apply confined_for_each. intros i.
  apply confined_bind; [apply confined_max_seq_length|]. intros width.
  apply confined_unit.
Qed.

(** A loop whose steps leave the state [st] alone is the loop over
    their outcomes. *)
Lemma for_each_in_fixed {A B} (f : A → run_in B) (r : A → result B)
    (l : list A) (st : state) :
  (∀ x, x ∈ l → f x st = (r x, st)) →
  for_each_in f l st = (for_each r l, st).
Proof.
  induction l as [|x l IH]; intros Hf; [done|].
  cbn [for_each_in for_each]. unfold bind_in at 1.
  rewrite Hf by left. destruct (r x) as [y|e]; [|done].
  cbn [mbind result_bind]. unfold bind_in.
  rewrite IH by (intros x' Hx'; apply Hf; by right).
  by destruct (for_each r l).
Qed.

Lemma bind_in_outcome {A B} (m : run_in A) (f : A → run_in B)
    (r : result A) (st : state) :
  m st = (r, st) →
  bind_in m f st = match r with
                   | Ok a => f a st
                   | Raise e => (Raise e, st)
                   end.
Proof. intros Hm. unfold bind_in. by rewrite Hm. Qed.

Lemma global_bound {A} (field : globals → option A) (v : A) (st : state) :
  field (vars st) = Some v → global field st = (Ok v, st).
Proof. intros Hv. unfold global, name. by rewrite Hv. Qed.

(** With [max_seq_length] bound to [m], a call in the interpreter is
    [group_texts m]: same result, same exception. *)
Lemma call_group_texts_bound {K T} `{EqDecision K}
    (examples : batch K T) (st : state) (m : Z) :
  max_seq_length (vars st) = Some m →
  call_group_texts examples st = (group_texts m examples, st).
Proof.
  intros Hm. unfold call_group_texts, group_texts.
  rewrite (bind_in_outcome _ _
             (for_each (fun k => v ← Py.getitem examples k;
                                 Ok (k, Py.sum_lists v)) (Py.keys examples))).
  2:{ apply for_each_in_fixed. intros k _.
      unfold bind_in, lift, unit_in. by destruct (Py.getitem examples k). }
  destruct (for_each _ (Py.keys examples)) as [kvs|e]; [|done].
  cbn [mbind result_bind].
  rewrite (bind_in_outcome _ _ (Py.index (Py.keys examples) 0)) by done.
  destruct (Py.index (Py.keys examples) 0) as [k0|e]; [|done].
  cbn [mbind result_bind].
  rewrite (bind_in_outcome _ _ (Py.getitem (Py.dict_of kvs) k0)) by done.
  destruct (Py.getitem (Py.dict_of kvs) k0) as [t0|e]; [|done].
  cbn [mbind result_bind].
  rewrite (bind_in_outcome _ _ (Ok m)) by (by apply global_bound).
  rewrite (bind_in_outcome _ _ (Py.floordiv (Py.len t0) m)) by done.
  destruct (Py.floordiv (Py.len t0) m) as [q|e]; [|done].
  cbn [mbind result_bind].
  rewrite (bind_in_outcome _ _ (Ok m)) by (by apply global_bound).
  rewrite (bind_in_outcome _ _
             (for_each
                (fun kt : K * list T =>
                   starts ← Py.range 0 (q * m) m;
                   Ok (kt.1, (fun i : Z => Py.slice kt.2 i (i + m))
                               <$> (starts : list Z)))
                (Py.items (Py.dict_of kvs)))).
  { by destruct (for_each _ (Py.items (Py.dict_of kvs))). }
  apply for_each_in_fixed. intros kt _.
  rewrite (bind_in_outcome _ _ (Ok m)) by (by apply global_bound).
  rewrite (bind_in_outcome _ _ (Py.range 0 (q * m) m)) by done.
  destruct (Py.range 0 (q * m) m) as [starts|e]; [|done].
  cbn [mbind result_bind].
  rewrite (bind_in_outcome _ _
             (Ok ((fun i : Z => Py.slice kt.2 i (i + m)) <$> starts))); [done|].
  rewrite (for_each_in_fixed _ (fun i => Ok (Py.slice kt.2 i (i + m)))).
  - by rewrite (for_each_total _ (fun i => Py.slice kt.2 i (i + m))).
  - intros i _. by rewrite (bind_in_outcome _ _ (Ok m)) by (by apply global_bound).
Qed.

(** Before [max_seq_length] is bound, the call fails where Python
    does: on the empty dict at [list(examples.keys())[0]], otherwise at
    the first look-up of the name. *)
Lemma call_group_texts_unbound {K T} `{EqDecision K}
    (examples : batch K T) (st : state) :
  Py.dict_wf examples →
  max_seq_length (vars st) = None →
  (call_group_texts examples st).1
  = match examples with
    | [] => Raise IndexError
    | _ :: _ => Raise NameError
    end.
Proof.
  intros Hwf Hm. unfold call_group_texts.
  rewrite (bind_in_outcome _ _
             (for_each (fun k => v ← Py.getitem examples k;
                                 Ok (k, Py.sum_lists v)) (Py.keys examples))).
  2:{ apply for_each_in_fixed. intros k _.
      unfold bind_in, lift, unit_in. by destruct (Py.getitem examples k). }
  rewrite (for_each_keys examples Py.sum_lists Hwf).
  destruct examples as [|[k0 v0] rest]; [done|].
  set (ce := (fun kv : K * list (list T) => (kv.1, Py.sum_lists kv.2))
               <$> ((k0, v0) :: rest)).
  assert (Hce : Py.keys ce = Py.keys ((k0, v0) :: rest))
    by apply (keys_fmap_snd ((k0, v0) :: rest) (fun kv => Py.sum_lists kv.2)).
  rewrite (dict_of_NoDup ce) by (fold (Py.keys ce); by rewrite Hce).
  rewrite (bind_in_outcome _ _ (Ok k0)) by done.
  assert (Ht0 : Py.getitem ce k0 = Ok (Py.sum_lists v0)) by apply getitem_head.
  rewrite (bind_in_outcome _ _ (Ok (Py.sum_lists v0)))
    by (unfold lift; by rewrite Ht0).
  unfold bind_in, global, name. by rewrite Hm.
Qed.
End InterpreterFacts.

(** C5.  A call of [group_texts] inside the interpreter is stateless and
    deterministic: it leaves every global as it found it; in two
    interpreter states that bind [max_seq_length] alike, equal inputs
    give equal outcomes, whatever else the states hold; and with
    [max_seq_length] bound to [m] the outcome is [group_texts m] of the
    input, a function of the input dict and [m] alone. *)
Theorem group_texts_deterministic {K T} `{EqDecision K}
    (st1 st2 : Notebook.state) (examples1 examples2 : batch K T) :
  Notebook.max_seq_length (Notebook.vars st1)
  = Notebook.max_seq_length (Notebook.vars st2) →
  examples1 = examples2 →
  (Notebook.call_group_texts examples1 st1).1
  = (Notebook.call_group_texts examples2 st2).1 ∧
  (Notebook.call_group_texts examples1 st1).2 = st1 ∧
  (Notebook.call_group_texts examples2 st2).2 = st2 ∧
  ∀ m, Notebook.max_seq_length (Notebook.vars st1) = Some m →
       (Notebook.call_group_texts examples1 st1).1 = group_texts m examples1.
Proof.
  intros Hm ->.
  destruct (call_group_texts_confined examples2) as [Hstate Hread].
  split; [by apply Hread|]. split; [apply Hstate|]. split; [apply Hstate|].
  intros m Hbound. by rewrite (call_group_texts_bound examples2 st1 m Hbound).
Qed.

(** ** The vendored-source patch *)

Section SedFacts.
Import Sed.
Implicit Types (pat rep line pre post : string).

Lemma append_nil_l line : EmptyString +:+ line = line.
Proof. reflexivity. Qed.

Lemma append_cons c pre line : String c pre +:+ line = String c (pre +:+ line).
Proof. reflexivity. Qed.

Lemma strip_prefix_Some pat line rest :
  strip_prefix pat line = Some rest ↔ line = pat +:+ rest.
Proof.
  revert line. induction pat as [|a pat IH]; intros line; cbn.
  - rewrite append_nil_l. split; [by intros [= ->]|by intros ->].
  - rewrite append_cons. destruct line as [|b line]; [done|].
    case_decide as Hab.
    + subst b. rewrite IH. split; [by intros ->|by intros [= ->]].
    + split; [done|]. intros [= -> _]. done.
Qed.

Lemma occurs_in_head pat post : occurs_in pat (pat +:+ post).
Proof. by exists EmptyString, post. Qed.

Lemma occurs_in_cons pat c line : occurs_in pat line → occurs_in pat (String c line).
Proof. intros (pre & post & ->). by exists (String c pre), post. Qed.


(** An occurrence that does not start the line lies in its tail. *)
Lemma occurrence_tail pat c line pre post :
  strip_prefix pat (String c line) = None →
  String c line = pre +:+ pat +:+ post →
  ∃ pre', pre = String c pre' ∧ line = pre' +:+ pat +:+ post.
Proof.
  intros Hnone Hline. destruct pre as [|c' pre'].
  - rewrite append_nil_l in Hline. apply strip_prefix_Some in Hline. congruence.
  - rewrite append_cons in Hline. injection Hline as -> ->. by exists pre'.
Qed.

Lemma occursb_false pat line : occursb pat line = false → ¬ occurs_in pat line.
Proof.
  induction line as [|c line IH]; cbn [occursb].
  - destruct (strip_prefix pat EmptyString) eqn:Hp; [done|].
    intros _ (pre & post & Hline). destruct pre; [|done].
    rewrite append_nil_l in Hline. apply strip_prefix_Some in Hline. congruence.
  - destruct (strip_prefix pat (String c line)) eqn:Hp; [done|].
    intros Hb (pre & post & Hline).
    destruct (occurrence_tail _ _ _ _ _ Hp Hline) as (pre' & -> & Hline').
    apply (IH Hb). by exists pre', post.
Qed.

(** A line without a match is left as it is. *)
Lemma subst_first_no_match pat rep line :
  ¬ occurs_in pat line → subst_first pat rep line = line.
Proof.
  induction line as [|c line IH]; intros Hno.
  - cbn. destruct (strip_prefix pat EmptyString) as [rest|] eqn:Hp; [|done].
    apply strip_prefix_Some in Hp. exfalso. apply Hno. rewrite Hp.
    apply occurs_in_head.
  - cbn. destruct (strip_prefix pat (String c line)) as [rest|] eqn:Hp.
    + apply strip_prefix_Some in Hp. exfalso. apply Hno. rewrite Hp.
      apply occurs_in_head.
    + rewrite IH; [done|]. intros Hocc. by apply Hno, occurs_in_cons.
Qed.

(** A line with a match has its leftmost match replaced, and the text
    before and after that match kept. *)
Lemma subst_first_match pat rep line :
  occurs_in pat line →
  ∃ pre post,
    line = pre +:+ pat +:+ post ∧
    (∀ pre' post', line = pre' +:+ pat +:+ post' →
                   String.length pre ≤ String.length pre') ∧
    subst_first pat rep line = pre +:+ rep +:+ post.
Proof.
  induction line as [|c line IH]; intros Hocc.
  - destruct Hocc as (pre & post & Hline).
    destruct pre; [|done]. rewrite append_nil_l in Hline.
    exists EmptyString, post. split; [done|]. split; [cbn; lia|].
    apply strip_prefix_Some in Hline.
    cbn [subst_first]. by rewrite Hline.
  - cbn [subst_first].
    destruct (strip_prefix pat (String c line)) as [rest|] eqn:Hp.
    + exists EmptyString, rest. apply strip_prefix_Some in Hp.
      split; [done|]. split; [cbn; lia|done].
    + destruct Hocc as (pre0 & post0 & Hline).
      destruct (occurrence_tail _ _ _ _ _ Hp Hline) as (pre0' & -> & Hline').
      destruct IH as (pre & post & -> & Hleft & Hsub);
        [by exists pre0', post0|].
      exists (String c pre), post. split; [done|]. split.
      * intros pre' post' Hline''.
        destruct (occurrence_tail _ _ _ _ _ Hp Hline'') as (pre'' & -> & Heq).
        cbn. apply le_n_S. by eapply Hleft.
      * by rewrite Hsub.
Qed.

Lemma sed_i_lookup (fs : gmap string (list string)) (path : string) :
  sed_i fs !! path
  = (fun lines => if is_attrdict_module path then patch_file lines else lines)
      <$> fs !! path.
Proof.
  unfold sed_i. rewrite map_lookup_imap. by destruct (fs !! path).
Qed.
End SedFacts.

(** C8.  The patch rewrites the files that [attrdict/attrdict/*.py]
    names and no other; in such a file line [i] becomes the patch of
    line [i]; a line without ["from collections import"] is unchanged;
    in a line with it, the leftmost occurrence becomes
    ["from collections.abc import"] and the text before and after that
    occurrence is unchanged. *)
Theorem sed_patch_effect (fs : gmap string (list string)) (path : string) :
  (Sed.sed_i fs !! path
   = (fun lines => if Sed.is_attrdict_module path
                   then Sed.patch_file lines else lines) <$> fs !! path) ∧
  (∀ lines : list string,
     length (Sed.patch_file lines) = length lines ∧
     ∀ i, Sed.patch_file lines !! i = Sed.patch_line <$> lines !! i) ∧
  (∀ line : string,
     (¬ Sed.occurs_in Sed.regexp line → Sed.patch_line line = line) ∧
     (Sed.occurs_in Sed.regexp line →
      ∃ pre post : string,
        line = pre +:+ "from collections import" +:+ post ∧
        (∀ pre' post' : string,
           line = pre' +:+ "from collections import" +:+ post' →
           String.length pre ≤ String.length pre') ∧
        Sed.patch_line line = pre +:+ "from collections.abc import" +:+ post)).
Proof.
  split; [apply sed_i_lookup|]. split.
  - intros lines. unfold Sed.patch_file. split; [apply length_fmap|].
    intros i. apply list_lookup_fmap.
  - intros line. split.
    + apply subst_first_no_match.
    + apply subst_first_match.
Qed.

(** ** Running the notebook *)

Section NotebookFacts.
Import Datasets Notebook.
Variable pct_to_abs : Z → nat → nat.
Variable cache : string → string → Dataset.

Local Abbreviation nb := (notebook pct_to_abs cache).
Local Abbreviation train := (train_rows pct_to_abs cache).
Local Abbreviation validation := (validation_rows pct_to_abs cache).

Lemma snoc_three {A} (l : list A) (a b c : A) :
  l ++ [a; b; c] = ((l ++ [a]) ++ [b]) ++ [c].
Proof. by rewrite <- !app_assoc. Qed.

Lemma run_app (l1 l2 : list cell) (st : state) :
  run (l1 ++ l2) st = st' ← run l1 st; run l2 st'.
Proof.
  revert st. induction l1 as [|[text|exec] l1 IH]; intros st; cbn; [done..|].
  destruct (exec st) as [st'|e]; cbn; [apply IH|done].
Qed.

Lemma run_code (exec : state → result state) (l : list cell) (st : state) :
  run (Code exec :: l) st = st' ← exec st; run l st'.
Proof. reflexivity. Qed.

Lemma notebook_split :
  nb = take 38 nb ++ Code (cell_38) :: drop 39 nb.
Proof. reflexivity. Qed.

(** Cells 0 to 37 need nothing of the corpus. *)
Lemma run_until_resplit :
  run (take 38 nb) initial = Ok (after_resplit pct_to_abs cache).
Proof. vm_compute. reflexivity. Qed.

Lemma setitem_train (a b c : Dataset) :
  Py.setitem [("train"%string, a); ("validation"%string, b)] "train"%string c
  = [("train"%string, c); ("validation"%string, b)].
Proof. reflexivity. Qed.

Lemma setitem_validation (a b c : Dataset) :
  Py.setitem [("train"%string, a); ("validation"%string, b)] "validation"%string c
  = [("train"%string, a); ("validation"%string, c)].
Proof. reflexivity. Qed.

Lemma getitem_validation (a b : Dataset) :
  Py.getitem [("train"%string, a); ("validation"%string, b)] "validation"%string
  = Ok b.
Proof. reflexivity. Qed.

Lemma select_range_enough (n : Z) (ds : Dataset) :
  (n ≤ Py.len ds)%Z → select_range n ds = Ok (take (Z.to_nat n) ds).
Proof.
  intros Hn. unfold select_range.
  destruct ds as [|row ds]; [by rewrite take_nil|].
  by rewrite decide_True.
Qed.

(** Cell 38 succeeds when both splits are long enough. *)
Lemma cell_38_selects :
  (10000 ≤ Py.len train)%Z →
  (1000 ≤ Py.len validation)%Z →
  cell_38 (after_resplit pct_to_abs cache) = Ok (after_select pct_to_abs cache).
Proof.
  intros Htrain Hvalidation.
  unfold cell_38, truncate, name, after_resplit, after_select, prepared.
  cbn [vars raw_dataset mbind result_bind].
  rewrite getitem_head. cbn [mbind result_bind].
  rewrite (select_range_enough _ _ Htrain). cbn [mbind result_bind].
  unfold with_vars, emit, set_raw_dataset.
  cbn [vars fs trace raw_dataset language model_config model_dir config
       tokenizer max_seq_length tokenized_datasets defs mbind result_bind].
  rewrite setitem_train, getitem_validation. cbn [mbind result_bind].
  rewrite (select_range_enough _ _ Hvalidation).
  cbn [mbind result_bind]. rewrite setitem_validation.
  rewrite <- app_assoc. reflexivity.
Qed.

(** Cells 39 to 50 run on whatever rows were selected. *)
Lemma run_after_select (train' validation' : Dataset) (log : list event) :
  run (drop 39 nb) (prepared train' validation' log)
  = Ok (completed train' validation' log).
Proof.
  unfold completed. rewrite snoc_three. vm_compute. reflexivity.
Qed.

Lemma run_notebook :
  (10000 ≤ Py.len train)%Z →
  (1000 ≤ Py.len validation)%Z →
  run nb initial = Ok (finished pct_to_abs cache).
Proof.
  intros Htrain Hvalidation.
  rewrite notebook_split, run_app, run_until_resplit. cbn [mbind result_bind].
  rewrite run_code, cell_38_selects by done. cbn [mbind result_bind].
  apply run_after_select.
Qed.

(** Read as a generator over the dataset the notebook has loaded, cell
    25 yields a single batch: [len(raw_dataset)] counts the splits. *)
Lemma batch_iterator_single_batch (path name : string) :
  batch_iterator (load_dataset cache path name) 1000
  = Ok [text <$> take 1000 (cache path name)].
Proof.
  unfold batch_iterator, load_dataset.
  change (Py.range 0 (Py.len [("train"%string, cache path name)]) 1000)
    with (Ok (A:=list Z) [0%Z]).
  cbn [mbind result_bind for_each]. rewrite getitem_head.
  cbn [mbind result_bind].
  change 0%Z with (Z.of_nat 0). change 1000%Z with (Z.of_nat 1000) at 1.
  by rewrite slice_block.
Qed.

(** *** The two split expressions *)

Lemma read_from (p : Z) (rows : Dataset) :
  read pct_to_abs (Split "train" (Some p) None) rows
  = drop (pct_to_abs p (length rows)) rows.
Proof.
  unfold read, lower, upper. cbn [from_ to].
  apply take_ge. rewrite length_drop. lia.
Qed.

Lemma read_to (p : Z) (rows : Dataset) :
  read pct_to_abs (Split "train" None (Some p)) rows
  = take (pct_to_abs p (length rows)) rows.
Proof.
  unfold read, lower, upper. cbn [from_ to drop]. f_equal. lia.
Qed.

Lemma string_app_assoc (a b c : string) : (a +:+ b) +:+ c = a +:+ (b +:+ c).
Proof.
  induction a as [|x a IH]; [done|].
  change (String x ((a +:+ b) +:+ c) = String x (a +:+ (b +:+ c))).
  by rewrite IH.
Qed.
End NotebookFacts.

(** ** Claims about the notebook *)

Section NotebookClaims.
Import Datasets Notebook.
Variable pct_to_abs : Z → nat → nat.
Variable cache : string → string → Dataset.

Local Abbreviation nb := (notebook pct_to_abs cache).

(** C1, evaluated on the code.  Run from a fresh interpreter up to and
    including cell 28, the notebook instantiates the tokenizer and,
    as its very next library call, saves it: the file
    [roberta-base-pretrained-ko/tokenizer.json] holds a tokenizer that
    was never trained. *)
Theorem saved_tokenizer_is_untrained :
  ∃ st log saved,
    run (take 29 nb) initial = Ok st ∧
    trace st
    = log ++ [ new_ByteLevelBPETokenizer;
               tokenizer_save "roberta-base-pretrained-ko/tokenizer.json" ] ∧
    fs st !! "roberta-base-pretrained-ko/tokenizer.json"%string
    = Some (TokenizerJson saved) ∧
    ¬ trained saved.
Proof.
  eexists _, (take 5 events_until_resplit), (BPE None).
  split; [vm_compute; reflexivity|].
  split; [vm_compute; reflexivity|].
  split; [vm_compute; reflexivity|].
  intros [batches Hbatches]. discriminate Hbatches.
Qed.

(** C6.  When the two selections of cell 38 succeed, the whole
    notebook runs; its library calls end with the tokenizing [map]
    followed by the chunking [map]; the dataset was loaded before
    them and no other [map] precedes them; the final
    [tokenized_datasets] is [group_texts] mapped over
    [tokenize_function] mapped over the loaded data; and the chunking
    cell is the last code cell of the notebook. *)
Theorem pipeline_order :
  (10000 ≤ Py.len (train_rows pct_to_abs cache))%Z →
  (1000 ≤ Py.len (validation_rows pct_to_abs cache))%Z →
  ∃ st log raw tok,
    run nb initial = Ok st ∧
    trace st
    = log ++ [ DatasetDict_map (tokenize_function tok);
               DatasetDict_map (group_texts_with 128) ] ∧
    call_load_dataset "oscar" "unshuffled_deduplicated_ko" None ∈ log ∧
    (∀ f, DatasetDict_map f ∉ log) ∧
    raw_dataset (vars st) = Some raw ∧
    tokenized_datasets (vars st)
    = Some (Map (group_texts_with 128) (Map (tokenize_function tok) (Source raw))) ∧
    ∃ cells closing, nb = cells ++ [Code cell_49; Markdown closing].
Proof.
  intros Htrain Hvalidation.
  exists (finished pct_to_abs cache),
    (events_until_resplit
       ++ [ Dataset_select "train" 10000; Dataset_select "validation" 1000;
            AutoTokenizer_from_pretrained "roberta-base-pretrained-ko" ]).
  eexists _, reloaded.
  split; [by apply run_notebook|].
  split; [reflexivity|].
  split; [cbn; do 4 right; left|].
  split.
  { intros f Hin. cbn in Hin.
    repeat (apply elem_of_cons in Hin as [Hin|Hin]; [discriminate Hin|]).
    by apply elem_of_nil in Hin. }
  split; [reflexivity|]. split; [reflexivity|].
  exists (take 49 nb), "Awesome, the data is now fully pre-processed"%string.
  reflexivity.
Qed.

(** C7.  The directory name is the model name, then ["-pretrained-"],
    then the language code, for every pair of strings; cell 8 binds
    [model_dir] to it; and in the notebook, where the model is
    ["roberta-base"] and the language ["ko"], it is
    ["roberta-base-pretrained-ko"]. *)
Theorem model_dir_is_concatenation :
  (∀ model_config language : string,
     build_model_dir model_config language
     = (model_config +:+ "-pretrained-") +:+ language) ∧
  (∀ (st : state) (model_config language : string),
     ∃ st',
       cell_8 (with_vars (set_language language)
                 (with_vars (set_model_config model_config) st)) = Ok st' ∧
       model_dir (vars st')
       = Some ((model_config +:+ "-pretrained-") +:+ language)) ∧
  build_model_dir "roberta-base" "ko" = "roberta-base-pretrained-ko"%string ∧
  (∃ st, run (take 9 nb) initial = Ok st ∧
         model_dir (vars st) = Some "roberta-base-pretrained-ko"%string).
Proof.
  split; [|split; [|split]].
  - intros mc lang. unfold build_model_dir. by rewrite string_app_assoc.
  - intros st mc lang. eexists. split; [reflexivity|].
    cbn. unfold build_model_dir. by rewrite string_app_assoc.
  - reflexivity.
  - eexists. split; vm_compute; reflexivity.
Qed.

(** C9.  After cells 33 and 35 the split ["validation"] holds the
    rows of the cached train split before some row index and the
    split ["train"] the rows from that index on: validation followed
    by train is the cached split, the sizes add up to its size, and if
    its rows are pairwise distinct no row is in both. *)
Theorem resplit_partitions :
  let full := cache "oscar" "unshuffled_deduplicated_ko" in
  ∃ st train validation boundary,
    run (take 37 nb) initial = Ok st ∧
    raw_dataset (vars st)
    = Some [("train"%string, train); ("validation"%string, validation)] ∧
    validation = take boundary full ∧
    train = drop boundary full ∧
    validation ++ train = full ∧
    length train + length validation = length full ∧
    (NoDup full → ∀ r, r ∈ train → r ∉ validation).
Proof.
  intros full.
  exists (after_resplit pct_to_abs cache),
    (train_rows pct_to_abs cache), (validation_rows pct_to_abs cache),
    (pct_to_abs 5 (length full)).
  split; [vm_compute; reflexivity|]. split; [reflexivity|].
  assert (Hvalidation : validation_rows pct_to_abs cache
                        = take (pct_to_abs 5 (length full)) full)
    by apply read_to.
  assert (Htrain : train_rows pct_to_abs cache
                   = drop (pct_to_abs 5 (length full)) full)
    by apply read_from.
  rewrite Hvalidation, Htrain.
  split; [done|]. split; [done|]. split; [apply take_drop|]. split.
  - rewrite length_take, length_drop. lia.
  - intros Hnodup r Htr Hval.
    rewrite <- (take_drop (pct_to_abs 5 (length full)) full) in Hnodup.
    apply NoDup_app in Hnodup as (_ & Hdisjoint & _).
    by apply (Hdisjoint r).
Qed.
End NotebookClaims.

(** ** The claims on sample inputs *)

Lemma group_texts_deterministic_witness :
  Notebook.max_seq_length (Notebook.vars Samples.fresh_128)
  = Notebook.max_seq_length (Notebook.vars Samples.busy_128) ∧
  Samples.two_columns = Samples.two_columns ∧
  (Notebook.call_group_texts Samples.two_columns Samples.fresh_128).1
  = (Notebook.call_group_texts Samples.two_columns Samples.busy_128).1 ∧
  (Notebook.call_group_texts Samples.two_columns Samples.fresh_128).2
  = Samples.fresh_128 ∧
  (Notebook.call_group_texts Samples.two_columns Samples.busy_128).2
  = Samples.busy_128 ∧
  (Notebook.call_group_texts Samples.two_columns Samples.fresh_128).1
  = group_texts 128 Samples.two_columns.
Proof.
  assert (Hm : Notebook.max_seq_length (Notebook.vars Samples.fresh_128)
               = Notebook.max_seq_length (Notebook.vars Samples.busy_128))
    by reflexivity.
  split; [exact Hm|]. split; [reflexivity|].
  destruct (group_texts_deterministic Samples.fresh_128 Samples.busy_128
              Samples.two_columns Samples.two_columns Hm eq_refl)
    as (Hsame & Hfresh & Hbusy & Hpure).
  split; [exact Hsame|]. split; [exact Hfresh|]. split; [exact Hbusy|].
  exact (Hpure 128%Z eq_refl).
Defined.

Lemma sed_patch_effect_witness :
  Sed.sed_i Samples.vendored !! "attrdict/attrdict/mapping.py"%string
  = Some [ "from collections.abc import Mapping"%string;
           "import six"%string;
           "x = 'from collections.abc import from collections import'"%string ] ∧
  ¬ Sed.occurs_in Sed.regexp "import six" ∧
  Sed.patch_line "import six" = "import six"%string ∧
  Sed.occurs_in Sed.regexp "x = 'from collections import from collections import'" ∧
  ∃ pre post : string,
    "x = 'from collections import from collections import'"%string
    = pre +:+ "from collections import" +:+ post ∧
    Sed.patch_line "x = 'from collections import from collections import'"
    = pre +:+ "from collections.abc import" +:+ post.
Proof.
  destruct (sed_patch_effect Samples.vendored "attrdict/attrdict/mapping.py")
    as (Hfile & _ & Hline).
  assert (Hno : ¬ Sed.occurs_in Sed.regexp "import six")
    by (apply occursb_false; reflexivity).
  assert (Hyes : Sed.occurs_in Sed.regexp
                   "x = 'from collections import from collections import'")
    by (exists "x = '"%string, " from collections import'"%string; reflexivity).
  split; [rewrite Hfile; vm_compute; reflexivity|].
  split; [exact Hno|].
  split; [exact (proj1 (Hline "import six"%string) Hno)|].
  split; [exact Hyes|].
  destruct (proj2 (Hline _) Hyes) as (pre & post & Heq & _ & Hpatch).
  exists pre, post. split; assumption.
Defined.

Lemma pipeline_order_witness :
  (10000 ≤ Py.len (Notebook.train_rows Datasets.pct_to_abs_closest
                     Samples.uniform))%Z ∧
  (1000 ≤ Py.len (Notebook.validation_rows Datasets.pct_to_abs_closest
                    Samples.uniform))%Z ∧
  ∃ st log tok,
    Notebook.run (Notebook.notebook Datasets.pct_to_abs_closest
                    Samples.uniform) Notebook.initial = Ok st ∧
    Notebook.trace st
    = log ++ [ Notebook.DatasetDict_map (Notebook.tokenize_function tok);
               Notebook.DatasetDict_map (Notebook.group_texts_with 128) ].
Proof.
  assert (Htrain :
            (10000 ≤ Py.len (Notebook.train_rows Datasets.pct_to_abs_closest
                               Samples.uniform))%Z)
    by (apply (bool_decide_unpack _); vm_compute; exact I).
  assert (Hvalidation :
            (1000 ≤ Py.len (Notebook.validation_rows Datasets.pct_to_abs_closest
                              Samples.uniform))%Z)
    by (apply (bool_decide_unpack _); vm_compute; exact I).
  split; [exact Htrain|]. split; [exact Hvalidation|].
  destruct (pipeline_order Datasets.pct_to_abs_closest Samples.uniform
              Htrain Hvalidation)
    as (st & log & raw & tok & Hrun & Htrace & _).
  exists st, log, tok. split; assumption.
Defined.

Lemma resplit_partitions_witness :
  NoDup (Samples.numbered 40 "oscar" "unshuffled_deduplicated_ko") ∧
  ∃ st train validation,
    Notebook.run (take 37 (Notebook.notebook Datasets.pct_to_abs_closest
                             (Samples.numbered 40))) Notebook.initial = Ok st ∧
    Notebook.raw_dataset (Notebook.vars st)
    = Some [("train"%string, train); ("validation"%string, validation)] ∧
    validation ++ train = Samples.numbered 40 "oscar" "unshuffled_deduplicated_ko" ∧
    ∀ r, r ∈ train → r ∉ validation.
Proof.
  assert (Hnodup : NoDup (Samples.numbered 40 "oscar" "unshuffled_deduplicated_ko"))
    by (apply (bool_decide_unpack _); vm_compute; exact I).
  split; [exact Hnodup|].
  destruct (resplit_partitions Datasets.pct_to_abs_closest (Samples.numbered 40))
    as (st & train & validation & boundary
        & Hrun & Hraw & _ & _ & Happ & _ & Hdisjoint).
  exists st, train, validation.
  split; [exact Hrun|]. split; [exact Hraw|]. split; [exact Happ|].
  exact (Hdisjoint Hnodup).
Defined.

(** The sizes that cell 36 printed, 3491649 and 183771 out of 3675420
    rows, are those of a cut at five percent rounded to the closest row. *)
Example recorded_sizes :
  Datasets.closest 5 3675420 = 183771%Z ∧
  (3675420 - Datasets.closest 5 3675420 = 3491649)%Z.
Proof. split; reflexivity. Qed.


(** * Further properties *)

(** ** [group_texts]: outcomes, ragged columns, composition *)

Section GroupTextsMore.
Context {K T : Type} `{EqDecision K}.
Implicit Types (examples : batch K T) (k : K).

Lemma group_texts_nil (m : Z) : group_texts m ([] : batch K T) = Raise IndexError.
Proof. reflexivity. Qed.

Lemma group_texts_zero k0 v0 (rest : batch K T) :
  Py.dict_wf ((k0, v0) :: rest) →
  group_texts 0 ((k0, v0) :: rest) = Raise ZeroDivisionError.
Proof.
  intros Hwf. unfold group_texts.
  rewrite (for_each_keys ((k0, v0) :: rest) Py.sum_lists Hwf).
  cbn [mbind result_bind].
  set (ce := (fun kv : K * list (list T) => (kv.1, Py.sum_lists kv.2))
               <$> ((k0, v0) :: rest)).
  assert (Hce : Py.keys ce = Py.keys ((k0, v0) :: rest))
    by apply (keys_fmap_snd ((k0, v0) :: rest) (fun kv => Py.sum_lists kv.2)).
  rewrite (dict_of_NoDup ce) by (fold (Py.keys ce); by rewrite Hce).
  assert (Hk0 : Py.index (Py.keys ((k0, v0) :: rest)) 0 = Ok k0) by done.
  assert (Ht0 : Py.getitem ce k0 = Ok (Py.sum_lists v0)) by apply getitem_head.
  rewrite Hk0. cbn [mbind result_bind]. rewrite Ht0. reflexivity.
Qed.

(** X1.  The outcome of a call: [IndexError] on the empty dict, whatever the
    block size; [ZeroDivisionError] on a dict with a key when the block
    size is 0; a result in every other case. *)
Theorem group_texts_outcome (max_seq_length : Z) examples :
  Py.dict_wf examples →
  (examples = [] → group_texts max_seq_length examples = Raise IndexError) ∧
  (examples ≠ [] → max_seq_length = 0%Z →
   group_texts max_seq_length examples = Raise ZeroDivisionError) ∧
  (examples ≠ [] → max_seq_length ≠ 0%Z →
   returns (group_texts max_seq_length examples)).
Proof.
  intros Hwf. split; [|split].
  - intros ->. apply group_texts_nil.
  - intros Hne ->. destruct examples as [|[k0 v0] rest]; [done|].
    by apply group_texts_zero.
  - intros Hne Hm. destruct examples as [|[k0 v0] rest]; [done|].
    rewrite (group_texts_unfold max_seq_length k0 v0 rest Hwf Hm). by eexists.
Qed.


Lemma windows_lookup (m n i : nat) (t : list T) :
  i < n → windows m n t !! i = Some (take m (drop (i * m) t)).
Proof.
  intros Hi. unfold windows. rewrite list_lookup_fmap.
  by rewrite lookup_seq_lt.
Qed.

(** X3.  The first column alone decides how many blocks every column gets:
    with a positive block size [m] and a first column of [L0] tokens,
    every key maps to [L0 / m] blocks, and block [i] of a key is the
    slice [i*m : i*m + m] of that key's own concatenation, cut short or
    empty where that column ends. *)
Theorem group_texts_block_positions (max_seq_length : nat) examples k0 v0 k tss :
  0 < max_seq_length →
  Py.dict_wf examples →
  examples !! 0 = Some (k0, v0) →
  (k, tss) ∈ examples →
  ∃ result blocks,
    group_texts (Z.of_nat max_seq_length) examples = Ok result ∧
    Py.getitem result k = Ok blocks ∧
    length blocks = length (concat v0) / max_seq_length ∧
    ∀ i, i < length (concat v0) / max_seq_length →
         blocks !! i
         = Some (take max_seq_length (drop (i * max_seq_length) (concat tss))).
Proof.
  intros Hm Hwf Hfirst Hin.
  destruct examples as [|[k0' v0'] rest]; [done|].
  injection Hfirst as -> ->.
  rewrite (group_texts_windows max_seq_length k0 v0 rest Hwf Hm).
  eexists _, _. split; [reflexivity|]. split.
  { apply (getitem_fmap_snd _
             (fun kv => windows max_seq_length
                          (length (concat v0) / max_seq_length) (concat kv.2))
             k tss Hwf Hin). }
  cbn [snd]. split; [apply windows_length|].
  intros i Hi. by apply windows_lookup.
Qed.

(** X4.  Only the concatenation of each column matters: two batches with the
    same keys and the same concatenated columns have the same outcome,
    whatever the boundaries between their examples. *)
Theorem group_texts_ignores_example_boundaries
    (max_seq_length : Z) (examples1 examples2 : batch K T) :
  Py.dict_wf examples1 →
  flattened examples1 = flattened examples2 →
  group_texts max_seq_length examples1 = group_texts max_seq_length examples2.
Proof.
  intros Hwf1 Hflat.
  assert (Hwf2 : Py.dict_wf examples2).
  { unfold Py.dict_wf.
    rewrite <- (keys_fmap_snd examples2 (fun kv => concat kv.2)).
    fold (flattened examples2). rewrite <- Hflat. unfold flattened.
    by rewrite (keys_fmap_snd examples1 (fun kv => concat kv.2)). }
  destruct examples1 as [|[k1 v1] rest1], examples2 as [|[k2 v2] rest2];
    try done.
  injection Hflat as -> Hv Hrest.
  destruct (decide (max_seq_length = 0%Z)) as [->|Hm].
  { by rewrite !group_texts_zero. }
  rewrite (group_texts_unfold max_seq_length k2 v1 rest1 Hwf1 Hm).
  rewrite (group_texts_unfold max_seq_length k2 v2 rest2 Hwf2 Hm).
  rewrite Hv. f_equal.
  set (g := fun kt : K * list T =>
              (kt.1, (fun i : Z => Py.slice kt.2 i (i + max_seq_length))
                       <$> Py.range_elems 0
                             (Py.len (concat v2) / max_seq_length * max_seq_length)
                             max_seq_length)).
  assert (Hg : ∀ examples,
             (fun kv : K * list (list T) => g (kv.1, concat kv.2)) <$> examples
             = g <$> flattened examples).
  { intros examples. unfold flattened. by rewrite <- list_fmap_compose. }
  change (((fun kv : K * list (list T) => g (kv.1, concat kv.2))
             <$> ((k2, v1) :: rest1))
          = ((fun kv : K * list (list T) => g (kv.1, concat kv.2))
               <$> ((k2, v2) :: rest2))).
  rewrite !Hg. unfold flattened. cbn [fmap list_fmap fst snd].
  rewrite Hv. f_equal. exact (f_equal (fmap g) Hrest).
Qed.

(** *** Chunking twice *)

Lemma windows_take (m n : nat) (t : list T) :
  windows m n (take (n * m) t) = windows m n t.
Proof.
  unfold windows. apply list_fmap_ext. intros j i Hj.
  apply lookup_seq in Hj as [-> Hlt]. cbn [Nat.add].
  rewrite !take_drop_commute, take_take. do 2 f_equal. nia.
Qed.

Lemma concat_windows_length (m : nat) (t : list T) :
  0 < m → length (concat (windows m (length t / m) t)) / m = length t / m.
Proof.
  intros Hm. rewrite windows_concat, length_take.
  pose proof (Nat.div_mod_eq (length t) m) as Hdiv.
  rewrite Nat.min_l by lia. by apply Nat.div_mul, Nat.neq_0_lt_0.
Qed.

(** X5.  Chunking is idempotent: a result of [group_texts], handed to
    [group_texts] again with the same block size, comes back unchanged. *)
Theorem group_texts_idempotent (max_seq_length : Z) examples result :
  Py.dict_wf examples →
  group_texts max_seq_length examples = Ok result →
  group_texts max_seq_length result = Ok result.
Proof.
  intros Hwf Hrun.
  destruct examples as [|[k0 v0] rest];
    [rewrite group_texts_nil in Hrun; discriminate Hrun|].
  destruct (Z.lt_trichotomy max_seq_length 0) as [Hneg|[->|Hpos]].
  - rewrite (group_texts_negative max_seq_length k0 v0 rest Hwf Hneg) in Hrun.
    injection Hrun as <-. cbn [fmap list_fmap fst].
    rewrite group_texts_negative; [|
      change (Py.dict_wf ((fun kv : K * list (list T) =>
                             (kv.1, ([] : list (list T))))
                            <$> ((k0, v0) :: rest)));
      unfold Py.dict_wf;
      by rewrite (keys_fmap_snd ((k0, v0) :: rest)
                    (fun _ => ([] : list (list T))))|done].
    cbn [fmap list_fmap fst]. do 2 f_equal.
    rewrite <- list_fmap_compose. by apply list_fmap_ext.
  - rewrite (group_texts_zero k0 v0 rest Hwf) in Hrun. discriminate Hrun.
  - set (m := Z.to_nat max_seq_length).
    assert (Hm : 0 < m) by lia.
    replace max_seq_length with (Z.of_nat m) in * by lia.
    rewrite (group_texts_windows m k0 v0 rest Hwf Hm) in Hrun.
    injection Hrun as <-. cbn [fmap list_fmap fst snd].
    set (q := length (concat v0) / m).
    rewrite group_texts_windows; [|
      change (Py.dict_wf ((fun kv : K * list (list T) =>
                             (kv.1, windows m q (concat kv.2)))
                            <$> ((k0, v0) :: rest)));
      unfold Py.dict_wf;
      by rewrite (keys_fmap_snd ((k0, v0) :: rest)
                    (fun kv => windows m q (concat kv.2)))|done].
    unfold q at 1. rewrite (concat_windows_length m (concat v0) Hm). fold q.
    cbn [fmap list_fmap fst snd].
    rewrite windows_concat, windows_take. do 2 f_equal.
    rewrite <- list_fmap_compose. apply list_fmap_ext.
    intros _ [k v] _. unfold compose. cbn [fst snd].
    by rewrite windows_concat, windows_take.
Qed.

(** *** Chunking a batch that follows another *)

Lemma windows_app (m q n : nat) (ta tb : list T) :
  length ta = q * m →
  windows m (q + n) (ta ++ tb) = windows m q ta ++ windows m n tb.
Proof.
  intros Hta. unfold windows.
  rewrite seq_app, fmap_app. f_equal.
  - apply list_fmap_ext. intros j i Hj.
    apply lookup_seq in Hj as [-> Hlt]. cbn [Nat.add].
    rewrite drop_app_le by nia.
    apply take_app_le. rewrite length_drop. nia.
  - replace (seq (0 + q) n) with (Nat.add q <$> seq 0 n)
      by (rewrite fmap_add_seq; f_equal; lia).
    rewrite <- list_fmap_compose.
    apply list_fmap_ext. intros _ i _. unfold compose.
    rewrite drop_app_ge by nia. do 2 f_equal. nia.
Qed.

Lemma fmap_zip_with_pointwise {A B C A' B' C'}
    (J : A → B → C) (J' : A' → B' → C') (F : C → C') (FA : A → A') (FB : B → B')
    (a : list A) (b : list B) :
  (∀ x y, x ∈ a → F (J x y) = J' (FA x) (FB y)) →
  F <$> zip_with J a b = zip_with J' (FA <$> a) (FB <$> b).
Proof.
  revert b. induction a as [|x a IH]; intros [|y b] Hpt; try done.
  cbn. rewrite Hpt by left. f_equal. apply IH.
  intros x' y' Hx'. apply Hpt. by right.
Qed.

Lemma keys_append_columns (a b : batch K T) :
  Py.keys a = Py.keys b → Py.keys (append_columns a b) = Py.keys a.
Proof.
  unfold Py.keys, append_columns.
  revert b. induction a as [|x a IH]; intros [|y b] Hkeys; try done.
  cbn in *. injection Hkeys as Hx Hkeys. f_equal. by apply IH.
Qed.

(** X6.  When every column of a batch concatenates to a whole number of
    blocks, chunking that batch followed by a second one gives the
    blocks of the first followed by the blocks of the second: nothing
    of either batch moves into a block of the other. *)
Theorem group_texts_append (max_seq_length q : nat)
    (examples1 examples2 result1 result2 : batch K T) :
  0 < max_seq_length →
  Py.dict_wf examples1 →
  Py.keys examples1 = Py.keys examples2 →
  uniform_length examples1 (q * max_seq_length) →
  group_texts (Z.of_nat max_seq_length) examples1 = Ok result1 →
  group_texts (Z.of_nat max_seq_length) examples2 = Ok result2 →
  group_texts (Z.of_nat max_seq_length) (append_columns examples1 examples2)
  = Ok (append_columns result1 result2).
Proof.
  intros Hm Hwf1 Hkeys HL Hrun1 Hrun2.
  assert (Hwf2 : Py.dict_wf examples2) by (unfold Py.dict_wf; by rewrite <- Hkeys).
  assert (Hwf : Py.dict_wf (append_columns examples1 examples2))
    by (unfold Py.dict_wf; by rewrite keys_append_columns).
  destruct examples1 as [|[k0 a0] rest1], examples2 as [|[k0' b0] rest2];
    try done.
  injection Hkeys as <- Hkeys.
  rewrite (group_texts_windows max_seq_length k0 a0 rest1 Hwf1 Hm) in Hrun1.
  rewrite (group_texts_windows max_seq_length k0 b0 rest2 Hwf2 Hm) in Hrun2.
  injection Hrun1 as <-. injection Hrun2 as <-.
  change (append_columns ((k0, a0) :: rest1) ((k0, b0) :: rest2))
    with ((k0, a0 ++ b0) :: append_columns rest1 rest2) in *.
  rewrite (group_texts_windows max_seq_length k0 (a0 ++ b0) _ Hwf Hm).
  f_equal.
  change ((k0, a0 ++ b0) :: append_columns rest1 rest2)
    with (append_columns ((k0, a0) :: rest1) ((k0, b0) :: rest2)).
  rewrite concat_app, length_app, (HL k0 a0) by left.
  rewrite Nat.div_add_l, Nat.div_mul by lia.
  unfold append_columns.
  apply (fmap_zip_with_pointwise
           (fun x y : K * list (list T) => (x.1, x.2 ++ y.2))
           (fun x y : K * list (list T) => (x.1, x.2 ++ y.2))
           (fun kv => (kv.1, windows max_seq_length
                               (q + length (concat b0) / max_seq_length)
                               (concat kv.2)))
           (fun kv => (kv.1, windows max_seq_length q (concat kv.2)))
           (fun kv => (kv.1, windows max_seq_length
                               (length (concat b0) / max_seq_length)
                               (concat kv.2)))
           ((k0, a0) :: rest1) ((k0, b0) :: rest2)).
  intros [k a] [k' b] Hin. cbn [fst snd]. f_equal.
  rewrite concat_app. apply windows_app. by apply (HL k a).
Qed.
End GroupTextsMore.


Lemma group_texts_outcome_witness :
  Py.dict_wf MoreSamples.ragged ∧
  MoreSamples.ragged ≠ [] ∧
  group_texts 0 MoreSamples.ragged = Raise ZeroDivisionError ∧
  returns (group_texts 2 MoreSamples.ragged).
Proof.
  assert (Hwf : Py.dict_wf MoreSamples.ragged) by sample_wf.
  assert (Hne : MoreSamples.ragged ≠ []) by discriminate.
  split; [exact Hwf|]. split; [exact Hne|]. split.
  - exact (proj1 (proj2 (group_texts_outcome 0 MoreSamples.ragged Hwf))
             Hne eq_refl).
  - refine (proj2 (proj2 (group_texts_outcome 2 MoreSamples.ragged Hwf)) Hne _).
    discriminate.
Defined.


Lemma group_texts_block_positions_witness :
  0 < 2 ∧
  Py.dict_wf MoreSamples.ragged ∧
  MoreSamples.ragged !! 0 = Some ("input_ids"%string, [[1; 2; 3]; [4; 5]]%Z) ∧
  ("labels"%string, [[6]]%Z) ∈ MoreSamples.ragged ∧
  ∃ result blocks,
    group_texts (Z.of_nat 2) MoreSamples.ragged = Ok result ∧
    Py.getitem result "labels"%string = Ok blocks ∧
    length blocks = length (concat [[1; 2; 3]; [4; 5]]%Z) / 2 ∧
    ∀ i, i < length (concat [[1; 2; 3]; [4; 5]]%Z) / 2 →
         blocks !! i = Some (take 2 (drop (i * 2) (concat [[6]]%Z))).
Proof.
  assert (Hm : 0 < 2) by lia.
  assert (Hwf : Py.dict_wf MoreSamples.ragged) by sample_wf.
  assert (Hfirst : MoreSamples.ragged !! 0
                   = Some ("input_ids"%string, [[1; 2; 3]; [4; 5]]%Z))
    by reflexivity.
  assert (Hin : ("labels"%string, [[6]]%Z) ∈ MoreSamples.ragged)
    by (right; left).
  split; [exact Hm|]. split; [exact Hwf|]. split; [exact Hfirst|].
  split; [exact Hin|].
  exact (group_texts_block_positions 2 MoreSamples.ragged _ _ _ _
           Hm Hwf Hfirst Hin).
Defined.

Lemma group_texts_ignores_example_boundaries_witness :
  Py.dict_wf Samples.two_columns ∧
  flattened Samples.two_columns = flattened MoreSamples.two_columns_regrouped ∧
  group_texts 2 Samples.two_columns
  = group_texts 2 MoreSamples.two_columns_regrouped.
Proof.
  assert (Hwf : Py.dict_wf Samples.two_columns) by sample_wf.
  assert (Hflat : flattened Samples.two_columns
                  = flattened MoreSamples.two_columns_regrouped) by reflexivity.
  split; [exact Hwf|]. split; [exact Hflat|].
  exact (group_texts_ignores_example_boundaries 2 _ _ Hwf Hflat).
Defined.

Lemma group_texts_idempotent_witness :
  Py.dict_wf MoreSamples.ragged ∧
  ∃ result,
    group_texts 2 MoreSamples.ragged = Ok result ∧
    group_texts 2 result = Ok result.
Proof.
  assert (Hwf : Py.dict_wf MoreSamples.ragged) by sample_wf.
  split; [exact Hwf|].
  eexists. split; [vm_compute; reflexivity|].
  apply (group_texts_idempotent 2 MoreSamples.ragged _ Hwf).
  vm_compute. reflexivity.
Defined.

Lemma group_texts_append_witness :
  0 < 2 ∧
  Py.dict_wf MoreSamples.first_batch ∧
  Py.keys MoreSamples.first_batch = Py.keys MoreSamples.second_batch ∧
  uniform_length MoreSamples.first_batch (2 * 2) ∧
  ∃ result1 result2,
    group_texts (Z.of_nat 2) MoreSamples.first_batch = Ok result1 ∧
    group_texts (Z.of_nat 2) MoreSamples.second_batch = Ok result2 ∧
    group_texts (Z.of_nat 2)
      (append_columns MoreSamples.first_batch MoreSamples.second_batch)
    = Ok (append_columns result1 result2).
Proof.
  assert (Hm : 0 < 2) by lia.
  assert (Hwf : Py.dict_wf MoreSamples.first_batch) by sample_wf.
  assert (Hkeys : Py.keys MoreSamples.first_batch
                  = Py.keys MoreSamples.second_batch) by reflexivity.
  assert (HL : uniform_length MoreSamples.first_batch (2 * 2))
    by sample_uniform.
  split; [exact Hm|]. split; [exact Hwf|]. split; [exact Hkeys|].
  split; [exact HL|].
  eexists _, _.
  split; [vm_compute; reflexivity|]. split; [vm_compute; reflexivity|].
  apply (group_texts_append 2 2 _ _ _ _ Hm Hwf Hkeys HL);
    vm_compute; reflexivity.
Defined.

(** ** [batch_iterator] (notebook cell 25) *)

Section BatchIterator.
Import Datasets Notebook.
Implicit Types (raw_dataset : DatasetDict) (rows : Dataset).

Lemma getitem_missing {K V} `{EqDecision K} (d : Py.dict K V) (k : K) :
  k ∉ Py.keys d → Py.getitem d k = Raise KeyError.
Proof.
  unfold Py.keys. induction d as [|[k' v] d IH]; intros Hk; [done|].
  cbn in *. apply not_elem_of_cons in Hk as [Hne Hk].
  rewrite decide_False by done. by apply IH.
Qed.

Lemma range_elems_single (stop step : Z) :
  (0 < stop ≤ step)%Z → Py.range_elems 0 stop step = [0%Z].
Proof.
  intros [Hstop Hstep]. unfold Py.range_elems, Py.range_len.
  rewrite !decide_True by lia.
  replace (stop - 0 - 1)%Z with (stop - 1)%Z by lia.
  rewrite Z.div_small by lia. reflexivity.
Qed.

(** X7.  The loop runs over [len(raw_dataset)], the number of splits, and not
    over the rows: whenever the DatasetDict has a ["train"] split and
    no more splits than the batch size, the generator yields exactly one
    batch, the texts of the first [batch_size] rows, however many rows
    there are. *)
Theorem batch_iterator_yields_one_batch raw_dataset rows (batch_size : nat) :
  Py.getitem raw_dataset "train"%string = Ok rows →
  0 < length raw_dataset ≤ batch_size →
  batch_iterator raw_dataset (Z.of_nat batch_size)
  = Ok [text <$> take batch_size rows].
Proof.
  intros Htrain [Hsplits Hsize]. unfold batch_iterator, Py.range.
  rewrite decide_False by lia. cbn [mbind result_bind].
  rewrite range_elems_single by (unfold Py.len; lia).
  cbn [for_each]. rewrite Htrain. cbn [mbind result_bind].
  change 0%Z with (Z.of_nat 0). by rewrite slice_block.
Qed.

(** X8.  The edge cases of the generator: a zero batch size raises
    [ValueError] from [range]; a negative batch size or a DatasetDict
    without splits yields nothing; with a positive batch size and
    splits, but none called ["train"], the first step raises
    [KeyError]. *)
Theorem batch_iterator_edge_cases raw_dataset (batch_size : Z) :
  (batch_size = 0%Z → batch_iterator raw_dataset batch_size = Raise ValueError) ∧
  ((batch_size < 0)%Z → batch_iterator raw_dataset batch_size = Ok []) ∧
  (batch_size ≠ 0%Z → raw_dataset = [] →
   batch_iterator raw_dataset batch_size = Ok []) ∧
  ((0 < batch_size)%Z → raw_dataset ≠ [] →
   "train"%string ∉ Py.keys raw_dataset →
   batch_iterator raw_dataset batch_size = Raise KeyError).
Proof.
  unfold batch_iterator, Py.range. repeat split.
  - intros ->. reflexivity.
  - intros Hneg. rewrite decide_False by lia. cbn [mbind result_bind].
    unfold Py.range_elems.
    rewrite range_len_backwards by (unfold Py.len; lia). reflexivity.
  - intros Hne ->. rewrite decide_False by done. cbn [mbind result_bind].
    unfold Py.range_elems, Py.range_len, Py.len. cbn [length].
    by destruct (decide (0 < batch_size)%Z); rewrite decide_False by lia.
  - intros Hpos Hsplits Htrain. rewrite decide_False by lia.
    cbn [mbind result_bind].
    assert (Hlen : (0 < Py.range_len 0 (Py.len raw_dataset) batch_size)%Z).
    { unfold Py.range_len, Py.len.
      destruct raw_dataset as [|split0 others]; [done|].
      rewrite !decide_True by (cbn [length]; lia).
      pose proof (Z.div_pos (Z.of_nat (length (split0 :: others)) - 0 - 1)
                    batch_size) as Hdiv.
      cbn [length] in *. lia. }
    unfold Py.range_elems.
    destruct (Z.to_nat (Py.range_len 0 (Py.len raw_dataset) batch_size))
      as [|n] eqn:Hn; [lia|].
    cbn [seq fmap list_fmap for_each].
    by rewrite (getitem_missing raw_dataset "train"%string Htrain).
Qed.
End BatchIterator.

Lemma batch_iterator_yields_one_batch_witness :
  Py.getitem MoreSamples.two_splits "train"%string
  = Ok [Datasets.Row 0 "a"; Datasets.Row 1 "b"; Datasets.Row 2 "c"] ∧
  0 < length MoreSamples.two_splits ≤ 2 ∧
  Notebook.batch_iterator MoreSamples.two_splits (Z.of_nat 2)
  = Ok [["a"%string; "b"%string]].
Proof.
  assert (Htrain : Py.getitem MoreSamples.two_splits "train"%string
                   = Ok [Datasets.Row 0 "a"; Datasets.Row 1 "b"; Datasets.Row 2 "c"])
    by reflexivity.
  assert (Hsize : 0 < length MoreSamples.two_splits ≤ 2) by (cbn; lia).
  split; [exact Htrain|]. split; [exact Hsize|].
  exact (batch_iterator_yields_one_batch MoreSamples.two_splits _ 2 Htrain Hsize).
Defined.

Lemma batch_iterator_edge_cases_witness :
  (0 < 1000)%Z ∧
  MoreSamples.no_train ≠ [] ∧
  ("train"%string ∉ Py.keys MoreSamples.no_train) ∧
  Notebook.batch_iterator MoreSamples.no_train 1000 = Raise KeyError ∧
  Notebook.batch_iterator MoreSamples.two_splits 0 = Raise ValueError ∧
  Notebook.batch_iterator MoreSamples.two_splits (-1) = Ok [].
Proof.
  assert (Hpos : (0 < 1000)%Z) by lia.
  assert (Hne : MoreSamples.no_train ≠ []) by discriminate.
  assert (Hk : "train"%string ∉ Py.keys MoreSamples.no_train)
    by (apply (bool_decide_unpack _); vm_compute; exact I).
  split; [exact Hpos|]. split; [exact Hne|]. split; [exact Hk|].
  split; [|split].
  - exact (proj2 (proj2 (proj2 (batch_iterator_edge_cases
                                  MoreSamples.no_train 1000))) Hpos Hne Hk).
  - exact (proj1 (batch_iterator_edge_cases MoreSamples.two_splits 0) eq_refl).
  - refine (proj1 (proj2 (batch_iterator_edge_cases
                            MoreSamples.two_splits (-1))) _). lia.
Defined.

(** ** Running the patch a second time *)

Section SedMore.
Import Sed.
Implicit Types (line pre post : string).

(** A pattern without the character [c] that fails on a text up to an
    occurrence of [c] fails whatever follows that occurrence. *)
Lemma strip_prefix_past_char (c : ascii) (p : string) :
  char_free c p = true →
  ∀ pre x y,
    strip_prefix p (pre +:+ String c x) = None →
    strip_prefix p (pre +:+ String c y) = None.
Proof.
  induction p as [|a p IH]; intros Hfree pre x y; [done|].
  cbn [char_free] in Hfree. case_decide as Hac; [done|].
  destruct pre as [|b pre].
  - rewrite !append_nil_l. cbn [strip_prefix]. by rewrite !decide_False by done.
  - rewrite !append_cons. cbn [strip_prefix].
    case_decide; [by apply IH|done].
Qed.

Lemma strip_prefix_cons (a b : ascii) (p s : string) :
  strip_prefix (String a p) (String b s)
  = if decide (a = b) then strip_prefix p s else None.
Proof. reflexivity. Qed.

(** Replacing a later occurrence creates no match further left. *)
Lemma strip_prefix_after_patch (c : ascii) pre post :
  strip_prefix regexp (String c (pre +:+ regexp +:+ post)) = None →
  strip_prefix regexp (String c (pre +:+ replacement +:+ post)) = None.
Proof.
  change (regexp +:+ post)
    with (String "f" ("rom collections import" +:+ post)).
  change (replacement +:+ post)
    with (String "f" ("rom collections.abc import" +:+ post)).
  change regexp with (String "f" "rom collections import").
  rewrite !strip_prefix_cons. case_decide; [|done].
  by apply strip_prefix_past_char.
Qed.

Lemma patch_line_cons (c : ascii) line :
  strip_prefix regexp (String c line) = None →
  patch_line (String c line) = String c (patch_line line).
Proof.
  intros Hp. unfold patch_line. cbn [subst_first]. by rewrite Hp.
Qed.

(** The scan passes over the inserted text and resumes after it. *)
Lemma patch_line_replacement post :
  patch_line (replacement +:+ post) = replacement +:+ patch_line post.
Proof. reflexivity. Qed.

(** X9.  A second run of the patch leaves the first replacement alone and
    rewrites the next occurrence: for a line with an occurrence, split
    at its leftmost one, the twice-patched line is the text before, the
    replacement, and the patch of the text after.  So the patch is
    idempotent on a line whose text after the first occurrence holds no
    further one. *)
Theorem patch_line_second_pass line :
  occurs_in regexp line →
  ∃ pre post,
    line = pre +:+ "from collections import" +:+ post ∧
    (∀ pre' post',
       line = pre' +:+ "from collections import" +:+ post' →
       String.length pre ≤ String.length pre') ∧
    patch_line line = pre +:+ "from collections.abc import" +:+ post ∧
    patch_line (patch_line line)
    = pre +:+ "from collections.abc import" +:+ patch_line post ∧
    (¬ occurs_in regexp post → patch_line (patch_line line) = patch_line line).
Proof.
  intros Hocc.
  enough (∃ pre post,
            line = pre +:+ regexp +:+ post ∧
            (∀ pre' post', line = pre' +:+ regexp +:+ post' →
                           String.length pre ≤ String.length pre') ∧
            patch_line line = pre +:+ replacement +:+ post ∧
            patch_line (pre +:+ replacement +:+ post)
            = pre +:+ replacement +:+ patch_line post)
    as (pre & post & Hline & Hleft & Hpatch & Htwice).
  { exists pre, post. split; [exact Hline|]. split; [exact Hleft|].
    split; [exact Hpatch|]. rewrite Hpatch. split; [exact Htwice|].
    intros Hno. rewrite Htwice. unfold patch_line at 1.
    by rewrite subst_first_no_match. }
  revert Hocc. induction line as [|c line IH]; intros Hocc.
  - destruct Hocc as (pre & post & Hline). destruct pre; discriminate Hline.
  - destruct (strip_prefix regexp (String c line)) as [rest|] eqn:Hp.
    + exists EmptyString, rest.
      pose proof (proj1 (strip_prefix_Some _ _ _) Hp) as Hline.
      split; [exact Hline|]. split; [cbn; lia|]. split.
      * unfold patch_line. cbn [subst_first]. by rewrite Hp.
      * rewrite !append_nil_l. apply patch_line_replacement.
    + destruct Hocc as (pre0 & post0 & Hline).
      destruct (occurrence_tail _ _ _ _ _ Hp Hline) as (pre0' & -> & Hline').
      destruct IH as (pre & post & -> & Hleft & Hpatch & Htwice);
        [by exists pre0', post0|].
      exists (String c pre), post.
      split; [reflexivity|]. split; [|split].
      * intros pre' post' Hline''.
        destruct (occurrence_tail _ _ _ _ _ Hp Hline'') as (pre'' & -> & Heq).
        cbn. apply le_n_S. by eapply Hleft.
      * rewrite (patch_line_cons _ _ Hp), Hpatch. reflexivity.
      * rewrite !append_cons.
        rewrite (patch_line_cons _ _ (strip_prefix_after_patch _ _ _ Hp)).
        by rewrite Htwice.
Qed.
End SedMore.

Lemma patch_line_second_pass_witness :
  Sed.occurs_in Sed.regexp "  from collections import Mapping" ∧
  ∃ pre post : string,
    "  from collections import Mapping"%string
    = pre +:+ "from collections import" +:+ post ∧
    Sed.patch_line (Sed.patch_line "  from collections import Mapping")
    = pre +:+ "from collections.abc import" +:+ Sed.patch_line post.
Proof.
  assert (Hocc : Sed.occurs_in Sed.regexp "  from collections import Mapping")
    by (exists "  "%string, " Mapping"%string; reflexivity).
  split; [exact Hocc|].
  destruct (patch_line_second_pass _ Hocc)
    as (pre & post & Hline & _ & _ & Htwice & _).
  exists pre, post. split; assumption.
Defined.

(** ** The notebook: which rows are used *)

Section NotebookMore.
Import Datasets Notebook.

Variable pct_to_abs : Z → nat → nat.
Variable cache : string → string → Dataset.

(** X11.  Which rows the demonstration uses: when both selections of cell 38
    succeed, the notebook ends with a validation split made of the
    first 1000 rows of the cached corpus and a train split made of the
    10000 rows that start at the five-percent boundary. *)
Theorem selected_rows :
  let full := cache "oscar" "unshuffled_deduplicated_ko" in
  let boundary := pct_to_abs 5 (length full) in
  (10000 ≤ Py.len (train_rows pct_to_abs cache))%Z →
  (1000 ≤ Py.len (validation_rows pct_to_abs cache))%Z →
  ∃ st,
    run (notebook pct_to_abs cache) initial = Ok st ∧
    raw_dataset (vars st)
    = Some [ ("train"%string, take (Z.to_nat 10000) (drop boundary full));
             ("validation"%string, take (Z.to_nat 1000) full) ] ∧
    length (take (Z.to_nat 10000) (drop boundary full)) = Z.to_nat 10000 ∧
    length (take (Z.to_nat 1000) full) = Z.to_nat 1000.
Proof.
  intros full boundary Htrain Hvalidation.
  exists (finished pct_to_abs cache).
  split; [by apply run_notebook|].
  assert (Hv : validation_rows pct_to_abs cache = take boundary full)
    by apply read_to.
  assert (Ht : train_rows pct_to_abs cache = drop boundary full)
    by apply read_from.
  unfold Py.len in Htrain, Hvalidation. rewrite Ht in Htrain.
  rewrite Hv, length_take in Hvalidation.
  unfold finished, completed. cbn [vars raw_dataset]. rewrite Ht, Hv.
  rewrite take_take, Nat.min_l by lia.
  split; [reflexivity|]. rewrite !length_take. lia.
Qed.
End NotebookMore.

Lemma selected_rows_witness :
  (10000 ≤ Py.len (Notebook.train_rows Datasets.pct_to_abs_closest
                     Samples.uniform))%Z ∧
  (1000 ≤ Py.len (Notebook.validation_rows Datasets.pct_to_abs_closest
                    Samples.uniform))%Z ∧
  ∃ st train validation,
    Notebook.run (Notebook.notebook Datasets.pct_to_abs_closest Samples.uniform)
      Notebook.initial = Ok st ∧
    Notebook.raw_dataset (Notebook.vars st)
    = Some [("train"%string, train); ("validation"%string, validation)] ∧
    length train = Z.to_nat 10000 ∧
    length validation = Z.to_nat 1000.
Proof.
  assert (Htrain :
            (10000 ≤ Py.len (Notebook.train_rows Datasets.pct_to_abs_closest
                               Samples.uniform))%Z)
    by (apply (bool_decide_unpack _); vm_compute; exact I).
  assert (Hvalidation :
            (1000 ≤ Py.len (Notebook.validation_rows Datasets.pct_to_abs_closest
                              Samples.uniform))%Z)
    by (apply (bool_decide_unpack _); vm_compute; exact I).
  split; [exact Htrain|]. split; [exact Hvalidation|].
  destruct (selected_rows Datasets.pct_to_abs_closest Samples.uniform
              Htrain Hvalidation) as (st & Hrun & Hraw & Hlt & Hlv).
  exists st. eexists _, _.
  split; [exact Hrun|]. split; [exact Hraw|]. split; assumption.
Defined.
